(** * A shallow embedding of the pythoneer coding agent

    The Python package [pythoneer] (agent.py, codebase.py, messages.py,
    trajectory.py, tools/base.py, tools/tools.py) is translated into Rocq:
    Python objects become records, dicts association lists that keep
    insertion order, and the methods that mutate the agent become functions
    in a small exception-and-state monad [M], in which an exception keeps the
    mutations performed before it was raised, as in Python. *)

From Stdlib Require Import String Ascii List ZArith Bool Lia.
Import ListNotations.
Open Scope string_scope.
Open Scope list_scope.

(* ------------------------------------------------------------------ *)
(** ** Python values, exceptions and strings *)

(** A Python object as the tools see it: a [str], or any other object,
    known by its type name ([type(v).__name__]) and its [str()] text. *)
Inductive PyVal :=
| VStr (s : string)
| VOther (type_name : string) (text : string).

Definition type_name (v : PyVal) : string :=
  match v with VStr _ => "str" | VOther t _ => t end.

Definition py_str (v : PyVal) : string :=
  match v with VStr s => s | VOther _ t => t end.

(** The exceptions the modelled code can raise. [OSError cls path] is the
    subclass [cls] of [OSError] ([FileExistsError], [NotADirectoryError],
    [IsADirectoryError]) raised by a file system call on the file at [path],
    given relative to the directory the code works in (the message Python
    builds names the full path). *)
Inductive PyExc :=
| AttributeError (msg : string)
| KeyError (msg : string)
| ValueError (msg : string)
| TypeError (msg : string)
| UnboundLocalError (msg : string)
| FileNotFoundError (msg : string)
| IndexError (msg : string)
| OSError (cls path : string).

Definition is_ValueError (e : PyExc) : bool :=
  match e with ValueError _ => true | _ => false end.

(** String helpers: concatenation of f-string pieces, the newline
    character, [str.startswith], [str.endswith], slicing and [str.lstrip]. *)
Definition cat (l : list string) : string := String.concat "" l.

Definition nl : string := String (ascii_of_nat 10) EmptyString.

Definition startswith (s pre : string) : bool := String.prefix pre s.

Definition endswith (s suf : string) : bool :=
  let n := String.length s in
  let k := String.length suf in
  (k <=? n)%nat && String.eqb (substring (n - k) k s) suf.

(** [s[i:]] *)
Definition slice_from (i : nat) (s : string) : string :=
  substring i (String.length s - i) s.

(** [s[:-k]] *)
Definition slice_drop_last (k : nat) (s : string) : string :=
  substring 0 (String.length s - k) s.

(** The characters [str.isspace] accepts among the ASCII ones. *)
Definition is_py_space (c : ascii) : bool :=
  let n := nat_of_ascii c in
  ((9 <=? n) && (n <=? 13))%nat || ((28 <=? n) && (n <=? 32))%nat.

Fixpoint lstrip (s : string) : string :=
  match s with
  | EmptyString => EmptyString
  | String c s' => if is_py_space c then lstrip s' else s
  end.

(* ------------------------------------------------------------------ *)
(** ** Dicts

    A Python dict as an association list in insertion order: assigning an
    existing key replaces its value in place, a new key goes at the end. *)
Module Dict.

Fixpoint get {V} (k : string) (d : list (string * V)) : option V :=
  match d with
  | [] => None
  | (k', v) :: d' => if String.eqb k k' then Some v else get k d'
  end.

Fixpoint set {V} (k : string) (v : V) (d : list (string * V)) : list (string * V) :=
  match d with
  | [] => [(k, v)]
  | (k', v') :: d' => if String.eqb k k' then (k', v) :: d' else (k', v') :: set k v d'
  end.

Definition keys {V} (d : list (string * V)) : list string := map fst d.

Definition mem {V} (k : string) (d : list (string * V)) : bool :=
  existsb (String.eqb k) (keys d).

End Dict.

(* ------------------------------------------------------------------ *)
(** ** codebase.py *)

(** [SourceFile]: its relative path and its list of versions. *)
Record SourceFile := mkSourceFile {
  relative_file_path : string;
  versions : list PyVal
}.

(** [SourceFile.contents]: [self.versions[-1]] (an [IndexError] on an empty
    list, [None] here). *)
Definition contents (sf : SourceFile) : option PyVal := List.last (map Some (versions sf)) None.

(** [SourceFile.update_contents]: [self.versions.append(contents)]. *)
Definition update_contents (c : PyVal) (sf : SourceFile) : SourceFile :=
  mkSourceFile (relative_file_path sf) (versions sf ++ [c]).

(** [Codebase.files]: relative path to [SourceFile]. *)
Definition Codebase := list (string * SourceFile).

(** [Codebase.add_file]: [self.files[p] = SourceFile(p, c)]. *)
Definition add_file (p : string) (c : PyVal) (cb : Codebase) : Codebase :=
  Dict.set p (mkSourceFile p [c]) cb.

(** [self.files[k]] for a key that may be any object: [None] (no open
    file) or an object that is not a [str] is never a key of the dict; an
    object of a mutable built-in container class cannot be hashed. *)
Definition files_getitem (k : option PyVal) (cb : Codebase) : PyExc + (string * SourceFile) :=
  match k with
  | None => inl (KeyError "None")
  | Some (VOther ty t) =>
      if existsb (String.eqb ty) ["list"; "dict"; "set"; "bytearray"]
      then inl (TypeError (cat ["unhashable type: '"; ty; "'"]))
      else inl (KeyError t)
  | Some (VStr p) =>
      match Dict.get p cb with
      | None => inl (KeyError p)
      | Some sf => inr (p, sf)
      end
  end.

(** [Codebase.retrieve_file] *)
Definition retrieve_file (k : option PyVal) (cb : Codebase) : PyExc + SourceFile :=
  match files_getitem k cb with inl e => inl e | inr (_, sf) => inr sf end.

(** [Codebase.edit_file]: [self.files[p].update_contents(c)]. *)
Definition edit_file (k : option PyVal) (c : PyVal) (cb : Codebase) : PyExc + Codebase :=
  match files_getitem k cb with
  | inl e => inl e
  | inr (p, sf) => inr (Dict.set p (update_contents c sf) cb)
  end.

(** [Codebase.get_relative_file_paths] *)
Definition get_relative_file_paths (cb : Codebase) : list string := Dict.keys cb.

(** [Codebase.formatted_relative_file_paths] *)
Definition formatted_relative_file_paths (cb : Codebase) : string :=
  String.concat nl (map (fun p => cat ["* "; p]) (get_relative_file_paths cb)).

(* ------------------------------------------------------------------ *)
(** ** The agent and its monad *)

(** The mutable attributes of [Agent] the tools read and write. *)
Record Agent := mkAgent {
  codebase : Codebase;
  open_file_relative_path : option PyVal;
  step_number : nat;
  task_completed : bool
}.

(** A method call on the agent: it returns a value or raises, and the
    agent it leaves behind carries every mutation made before the raise. *)
Definition M (A : Type) : Type := Agent -> (PyExc + A) * Agent.

Definition ret {A} (a : A) : M A := fun ag => (inr a, ag).
Definition raise {A} (e : PyExc) : M A := fun ag => (inl e, ag).
Definition bind {A B} (m : M A) (k : A -> M B) : M B :=
  fun ag => match m ag with
            | (inl e, ag') => (inl e, ag')
            | (inr a, ag') => k a ag'
            end.
Definition lift {A} (r : PyExc + A) : M A :=
  fun ag => match r with inl e => (inl e, ag) | inr a => (inr a, ag) end.
Definition gets {A} (f : Agent -> A) : M A := fun ag => (inr (f ag), ag).
Definition modify (f : Agent -> Agent) : M unit := fun ag => (inr tt, f ag).

Notation "x <- m ;; k" := (bind m (fun x => k))
  (at level 61, m at next level, right associativity).
Notation "m ;;; k" := (bind m (fun _ => k)) (at level 61, right associativity).

Definition set_codebase (cb : Codebase) (ag : Agent) : Agent :=
  mkAgent cb (open_file_relative_path ag) (step_number ag) (task_completed ag).
Definition set_open_file (p : option PyVal) (ag : Agent) : Agent :=
  mkAgent (codebase ag) p (step_number ag) (task_completed ag).
Definition set_task_completed (b : bool) (ag : Agent) : Agent :=
  mkAgent (codebase ag) (open_file_relative_path ag) (step_number ag) b.

(* ------------------------------------------------------------------ *)
(** ** tools/base.py: [Parameter] and the tool descriptors *)

(** The [Parameter] dataclass ([Parameter] is a Rocq keyword). Its generated [__init__] takes exactly the
    four fields as keywords ([required] defaults to [True]). *)
Record Parameter_ := mkParameter {
  name : string;
  type : string;
  description : string;
  required : bool
}.

(** A keyword argument value at a [Parameter(...)] call site. *)
Inductive KwVal := KwStr (s : string) | KwBool (b : bool) | KwList (l : list string).

(** The call [Parameter(name=..., type=..., description=..., [required=...],
    **extra)]: any keyword other than the four fields makes the dataclass
    [__init__] raise [TypeError]. *)
Definition Parameter_call (n t d : string) (req : option bool)
    (extra : list (string * KwVal)) : PyExc + Parameter_ :=
  match extra with
  | (k, _) :: _ =>
      inl (TypeError (cat ["Parameter.__init__() got an unexpected keyword argument '"; k; "'"]))
  | [] => inr (mkParameter n t d (match req with Some b => b | None => true end))
  end.

(** A list display [[e1, e2, ...]]: the elements are evaluated in order and
    the first exception propagates. *)
Fixpoint list_display {A} (l : list (PyExc + A)) : PyExc + list A :=
  match l with
  | [] => inr []
  | inl e :: _ => inl e
  | inr a :: l' =>
      match list_display l' with inl e => inl e | inr r => inr (a :: r) end
  end.

(** The tool classes of tools/tools.py. *)
Inductive ToolKind :=
| OpenFileTool | EditFileTool | CreateFileTool
| RunPythonScriptTool | RunAllTestsTool | CompleteTaskTool.

Definition class_name (k : ToolKind) : string :=
  match k with
  | OpenFileTool => "OpenFileTool" | EditFileTool => "EditFileTool"
  | CreateFileTool => "CreateFileTool" | RunPythonScriptTool => "RunPythonScriptTool"
  | RunAllTestsTool => "RunAllTestsTool" | CompleteTaskTool => "CompleteTaskTool"
  end.

Definition NAME (k : ToolKind) : string :=
  match k with
  | OpenFileTool => "open_file" | EditFileTool => "edit_file"
  | CreateFileTool => "create_file" | RunPythonScriptTool => "run_python_script"
  | RunAllTestsTool => "run_all_tests" | CompleteTaskTool => "complete_task"
  end.

Definition env_description_script : string :=
  cat ["The name of the environment to run the script in, either 'python2' or 'python3'.";
       "The 'python2' environment should be used when running Python 2 scripts, and the ";
       "'python3' environment should be used when running Python 3 scripts."].

Definition env_description_tests : string :=
  cat ["The name of the environment to run the tests in, either 'python2' or 'python3'.";
       "The 'python2' environment should be used when working with a codebase ";
       "that uses Python 2, and the 'python3' environment should be used when working ";
       "with a codebase that uses Python 3."].

(** The class attribute [PARAMETERS] of each tool, as its class body
    evaluates it (long descriptions are abbreviated to their first words;
    they play no part in any behaviour modelled here). *)
Definition PARAMETERS (k : ToolKind) : PyExc + list Parameter_ :=
  match k with
  | OpenFileTool => list_display
      [Parameter_call "file_path" "string"
         "The full path to the file to open. e.g., 'data/processing.py'" None []]
  | EditFileTool => list_display
      [Parameter_call "commit_message" "string" "The commit message is a short description ..." None [];
       Parameter_call "new_file_contents" "string" "The new contents of the file. ..." None []]
  | CreateFileTool => list_display
      [Parameter_call "file_path" "string" "The full path to the new file to create, ..." None [];
       Parameter_call "file_contents" "string" "The full contents of the new file." None []]
  | RunPythonScriptTool => list_display
      [Parameter_call "script_path" "string"
         "The full path to the Python script to run. e.g., 'data/processing.py'" None [];
       Parameter_call "script_arguments" "string" "The arguments to pass to the Python script ..."
         (Some false) [];
       Parameter_call "environment" "string" env_description_script None
         [("enum", KwList ["python2"; "python3"])]]
  | RunAllTestsTool => list_display
      [Parameter_call "environment" "string" env_description_tests None
         [("enum", KwList ["python2"; "python3"])]]
  | CompleteTaskTool => list_display []
  end.

Definition DESCRIPTION (k : ToolKind) : string :=
  match k with
  | OpenFileTool => "Open a file in the file editor. ..."
  | EditFileTool => "Edit the contents of the file open in your file editor. ..."
  | CreateFileTool => "Create a new file in the codebase. ..."
  | RunPythonScriptTool => "Run a Python script."
  | RunAllTestsTool => "Run all tests in the codebase."
  | CompleteTaskTool => "Declare the task you are working on as complete."
  end.

Set Warnings "-register-all".

(** JSON-serialisable values, as the messages and descriptors build them. *)
Inductive Json :=
| JStr (s : string)
| JVal (v : PyVal)
| JList (l : list Json)
| JDict (kvs : list (string * Json)).

(** [Tool.json_description]: the tool's descriptor; it exists only if the
    class body, and so [PARAMETERS], evaluated. *)
Definition json_description (k : ToolKind) : PyExc + Json :=
  match PARAMETERS k with
  | inl e => inl e
  | inr ps =>
      let properties :=
        fold_left (fun props p =>
                     Dict.set (name p) (JDict [("type", JStr (type p));
                                               ("description", JStr (description p))]) props)
                  ps [] in
      let req := map (fun p => JStr (name p)) (filter required ps) in
      inr (JDict [("name", JStr (NAME k)); ("description", JStr (DESCRIPTION k));
                  ("input_schema", JDict [("type", JStr "object");
                                          ("properties", JDict properties);
                                          ("required", JList req)])])
  end.

(* ------------------------------------------------------------------ *)
(** ** tools/observations.py *)

Record Observation := mkObservation {
  observation_description : string;
  summarised_observation_description : string;
  terminal_output : bool;
  terminal_content : option string;
  file_viewer_changed : bool;
  file_viewer_new_content : option PyVal;
  review_comment : option string
}.

(* ------------------------------------------------------------------ *)
(** ** tools/base.py and tools/tools.py: tool instances *)

(** A tool instance: its class and [self.arguments], the keyword arguments
    it was built with. *)
Record Tool := mkTool {
  kind : ToolKind;
  arguments : list (string * PyVal)
}.

(** The attributes a tool instance has: [arguments] on the instance, the
    class attributes and the methods of its class and of [Tool] (besides the
    dunder attributes of every object). *)
Definition tool_attributes (k : ToolKind) : list string :=
  ["arguments"; "NAME"; "DESCRIPTION"; "PARAMETERS"; "validate_arguments"; "use"; "_use";
   "json_description"; "_validate_argument_values"; "_validate_all_parameters_present";
   "_validate_argument_types"; "_warn_unused_arguments"]
  ++ match k with
     | RunPythonScriptTool | RunAllTestsTool =>
         ["ENVIRONMENT_TO_IMAGE"; "_create_observation_description"]
     | _ => []
     end.

(** Attribute lookup [self.a] on a tool instance. *)
Definition getattr_tool (t : Tool) (a : string) : M unit :=
  if existsb (String.eqb a) (tool_attributes (kind t)) then ret tt
  else raise (AttributeError (cat ["'"; class_name (kind t); "' object has no attribute '"; a; "'"])).

(** [self.arguments[k]] *)
Definition getitem (t : Tool) (k : string) : M PyVal :=
  match Dict.get k (arguments t) with
  | Some v => ret v
  | None => raise (KeyError k)
  end.

(** Calling a [str] method on a value: any other object lacks it. *)
Definition as_str (v : PyVal) (meth : string) : M string :=
  match v with
  | VStr s => ret s
  | VOther t _ => raise (AttributeError (cat ["'"; t; "' object has no attribute '"; meth; "'"]))
  end.

(** [v in l] for a list of strings: an object that is not a [str] equals
    none of them. *)
Definition py_in (v : PyVal) (l : list string) : bool :=
  match v with VStr s => existsb (String.eqb s) l | VOther _ _ => false end.

(** Reading a local variable that is assigned on one branch only. *)
Definition read_local {A} (x : string) (o : option A) : M A :=
  match o with
  | Some a => ret a
  | None => raise (UnboundLocalError
      (cat ["cannot access local variable '"; x; "' where it is not associated with a value"]))
  end.

(** [Tool._validate_all_parameters_present] *)
Fixpoint validate_all_parameters_present (t : Tool) (ps : list Parameter_) : M unit :=
  match ps with
  | [] => ret tt
  | p :: ps' =>
      if required p && negb (Dict.mem (name p) (arguments t)) then
        raise (ValueError (cat ["Tool "; class_name (kind t);
                                " is missing required argument: "; name p]))
      else validate_all_parameters_present t ps'
  end.

(** [Tool._validate_argument_types] *)
Fixpoint validate_argument_types (t : Tool) (ps : list Parameter_) : M unit :=
  match ps with
  | [] => ret tt
  | p :: ps' =>
      match Dict.get (name p) (arguments t) with
      | None => validate_argument_types t ps'
      | Some v =>
          let expected := if String.eqb (type p) "string" then "str" else type p in
          let actual := type_name v in
          if negb (String.eqb actual expected) then
            raise (ValueError (cat ["Invalid argument type for "; name p; ". ";
                                    "Expected "; expected; ", got "; actual; "."]))
          else validate_argument_types t ps'
      end
  end.

(** [ENVIRONMENT_TO_IMAGE] of the two sandbox tools. *)
Definition ENVIRONMENT_TO_IMAGE : list (string * string) :=
  [("python2", "python2-base:latest"); ("python3", "python3-base:latest")].

Definition environment_error (env : PyVal) : PyExc :=
  ValueError (cat ["The environment '"; py_str env; "' is not valid. ";
                   "Valid environments are: dict_keys(['python2', 'python3'])"]).

(** [_validate_argument_values] of each class ([Tool]'s own is [pass]). *)
Definition validate_argument_values (t : Tool) : M unit :=
  match kind t with
  | OpenFileTool =>
      fp <- getitem t "file_path";;
      cb <- gets codebase;;
      if negb (py_in fp (get_relative_file_paths cb)) then
        raise (ValueError (cat ["The file '"; py_str fp; "' does not exist in the codebase. ";
                                "The files in the codebase are:"; nl;
                                formatted_relative_file_paths cb]))
      else ret tt
  | EditFileTool => ret tt
  | CreateFileTool =>
      fp <- getitem t "file_path";;
      cb <- gets codebase;;
      if py_in fp (get_relative_file_paths cb) then
        raise (ValueError (cat ["The file '"; py_str fp; "' already exists in the codebase. ";
                                "The files in the codebase are:"; nl;
                                formatted_relative_file_paths cb]))
      else ret tt
  | RunPythonScriptTool =>
      sp <- getitem t "script_path";;
      cb <- gets codebase;;
      if negb (py_in sp (get_relative_file_paths cb)) then
        raise (ValueError (cat ["The file '"; py_str sp; "' does not exist in the codebase.";
                                "The files in the codebase are: ";
                                formatted_relative_file_paths cb]))
      else
        env <- getitem t "environment";;
        if negb (py_in env (Dict.keys ENVIRONMENT_TO_IMAGE)) then raise (environment_error env)
        else ret tt
  | RunAllTestsTool =>
      env <- getitem t "environment";;
      if negb (py_in env (Dict.keys ENVIRONMENT_TO_IMAGE)) then raise (environment_error env)
      else ret tt
  | CompleteTaskTool => ret tt
  end.

(** [Tool.validate_arguments(agent)]; [_warn_unused_arguments] only logs. *)
Definition validate_arguments (t : Tool) : M unit :=
  ps <- lift (PARAMETERS (kind t));;
  validate_all_parameters_present t ps;;;
  validate_argument_values t;;;
  validate_argument_types t ps;;;
  ret tt.

(** A [try: body except ValueError as exc: handler else: els] statement:
    only a [ValueError] raised by [body] is caught; other exceptions, and
    those raised by [handler] or [els], propagate. *)
Definition try_except_ValueError_else {A B} (body : M A) (handler : string -> M B)
    (els : A -> M B) : M B :=
  fun ag =>
    match body ag with
    | (inr a, ag') => els a ag'
    | (inl (ValueError msg), ag') => handler msg ag'
    | (inl e, ag') => (inl e, ag')
    end.

(** The outcome of one [docker run]: the exit status, and the files
    [stdout.txt] and [stderr.txt] the command left in the mounted directory
    ([None] when a file was never written). *)
Record SandboxRun := mkSandboxRun {
  exit_status : Z;
  stdout_txt : option string;
  stderr_txt : option string
}.

(** [with path.open("r") as fh: fh.read()] *)
Definition read_text (file : string) (o : option string) : PyExc + string :=
  match o with
  | Some s => inr s
  | None => inl (FileNotFoundError (cat ["[Errno 2] No such file or directory: '"; file; "'"]))
  end.

(** [RunPythonScriptTool._create_observation_description] *)
Definition RunPythonScriptTool_create_observation_description
    (script_path environment stdout stderr : string) : string * string :=
  let ran := cat ["Ran the Python script '"; script_path; "' in the '"; environment;
                  "' environment."] in
  let fence s := cat [nl; "```"; nl; s; nl; "```"] in
  if negb (String.eqb stdout "") && negb (String.eqb stderr "") then
    (cat [ran; nl; "stdout:"; fence stdout; nl; "stderr:"; fence stderr], ran)
  else if negb (String.eqb stdout "") then
    (cat [ran; nl; "stdout:"; fence stdout], cat [ran; "The script ran successfully with no errors."])
  else if negb (String.eqb stderr "") then
    (cat [ran; nl; "stderr:"; fence stderr], cat [ran; "The script ran with errors."])
  else
    (cat [ran; "The script ran successfully with no output."],
     cat [ran; "The script ran successfully with no output."]).

(** The part of [RunPythonScriptTool._use] after the container exited:
    [subprocess.run(command, check=True)] raises [CalledProcessError] on a
    non-zero exit, which is caught and ignored ([pass]); the two files are
    read and rendered. *)
Definition RunPythonScriptTool_observation (script_path environment : string)
    (r : SandboxRun) : PyExc + Observation :=
  match read_text "stdout.txt" (stdout_txt r), read_text "stderr.txt" (stderr_txt r) with
  | inl e, _ => inl e
  | inr _, inl e => inl e
  | inr stdout, inr stderr =>
      let '(d, sd) := RunPythonScriptTool_create_observation_description
                        script_path environment stdout stderr in
      let tc := if negb (String.eqb stdout "") || negb (String.eqb stderr "")
                then cat [stdout; nl; stderr]
                else "The script ran successfully with no output." in
      inr (mkObservation d sd true (Some tc) false None None)
  end.

(** [RunAllTestsTool._create_observation_description]; the source's
    ["\STDOUT"] is a backslash followed by [STDOUT]. *)
Definition RunAllTestsTool_create_observation_description
    (environment stdout stderr : string) (tests_passed : bool) : string * string :=
  let ran := cat ["Ran all tests in the codebase in the '"; environment; "' environment."; nl] in
  if tests_passed then
    (cat [ran; "All tests ran successfully with no errors."],
     cat [ran; "All tests ran successfully with no errors."])
  else
    let d := cat [ran; "There were errors when running the tests."] in
    let d := if negb (String.eqb stdout "") then cat [d; "\STDOUT:"; nl; "```"; nl; stdout; nl; "```"] else d in
    let d := if negb (String.eqb stderr "") then cat [d; nl; "STDERR:"; nl; "```"; nl; stderr; nl; "```"] else d in
    (d, cat [ran; "There were errors when running the tests."]).

(** The part of [RunAllTestsTool._use] after the container exited:
    [tests_passed] is [False] exactly when [subprocess.run(check=True)]
    raised [CalledProcessError], i.e. on a non-zero exit status. *)
Definition RunAllTestsTool_observation (environment : string) (r : SandboxRun)
    : PyExc + Observation :=
  let tests_passed := Z.eqb (exit_status r) 0 in
  match read_text "stdout.txt" (stdout_txt r), read_text "stderr.txt" (stderr_txt r) with
  | inl e, _ => inl e
  | inr _, inl e => inl e
  | inr stdout, inr stderr =>
      let '(d, sd) := RunAllTestsTool_create_observation_description
                        environment stdout stderr tests_passed in
      let tc := if negb (String.eqb stdout "") || negb (String.eqb stderr "")
                then cat [stdout; nl; stderr]
                else "All tests ran successfully with no output." in
      inr (mkObservation d sd true (Some tc) false None None)
  end.

(* ------------------------------------------------------------------ *)
(** ** tools/utils.py *)

(** [EXTENSION_TO_MARKDOWN_IDENTIFIER] *)
Definition EXTENSION_TO_MARKDOWN_IDENTIFIER : list (string * string) :=
  [("py", "python"); ("java", "java"); ("ts", "typescript"); ("js", "javascript");
   ("html", "html"); ("json", "json"); ("txt", "plaintext")].

(** [s.split(c)] for a one-character separator. *)
Fixpoint split_on (c : ascii) (s : string) : list string :=
  match s with
  | EmptyString => [""]
  | String a s' =>
      let r := split_on c s' in
      if Ascii.eqb a c then "" :: r
      else match r with
           | [] => [String a EmptyString]
           | h :: t => String a h :: t
           end
  end.

Definition slash : ascii := "/"%char.

(** The components of a POSIX [PurePath] other than its root: the text is
    cut at each [/], and empty and [.] components are dropped. *)
Definition path_parts (p : string) : list string :=
  filter (fun x => negb (String.eqb x "") && negb (String.eqb x ".")) (split_on slash p).

(** [PurePath.name]: the last component, or [""]. *)
Definition path_name (p : string) : string := last (path_parts p) "".

(** [s.rfind(c)], with [None] for [-1]. *)
Fixpoint rfind (c : ascii) (s : string) : option nat :=
  match s with
  | EmptyString => None
  | String a s' =>
      match rfind c s' with
      | Some i => Some (S i)
      | None => if Ascii.eqb a c then Some 0 else None
      end
  end.

(** [PurePath.suffix]: [name[i:]] for the last dot [i] of the name when
    [0 < i < len(name) - 1], the empty string otherwise. *)
Definition path_suffix (name : string) : string :=
  match rfind "."%char name with
  | Some i =>
      if (0 <? i)%nat && (i <? String.length name - 1)%nat
      then substring i (String.length name - i) name else ""
  | None => ""
  end.

(** [s.lstrip(".")] *)
Fixpoint lstrip_dots (s : string) : string :=
  match s with
  | String c s' => if Ascii.eqb c "."%char then lstrip_dots s' else s
  | EmptyString => EmptyString
  end.

(** [retrieve_file_identifier(file_path)] *)
Definition retrieve_file_identifier (file_path : string) : string :=
  let extension := lstrip_dots (path_suffix (path_name file_path)) in
  match Dict.get extension EXTENSION_TO_MARKDOWN_IDENTIFIER with
  | Some identifier => identifier
  | None => extension
  end.

(** [s.find(c)]: the index of the first [c], or [-1]. *)
Fixpoint find_char (c : ascii) (s : string) : Z :=
  match s with
  | EmptyString => (-1)%Z
  | String a s' =>
      if Ascii.eqb a c then 0%Z
      else let r := find_char c s' in if (r <? 0)%Z then r else (r + 1)%Z
  end.

Definition newline_char : ascii := ascii_of_nat 10.

(** [remove_code_block_tags(code_string)]. The slice
    [code_string[code_string.find("\n") + 1:]] starts at [0] when the
    string has no newline. *)
Definition remove_code_block_tags (code_string : string) : string :=
  let s1 := if startswith code_string "```"
            then slice_from (Z.to_nat (find_char newline_char code_string + 1)) code_string
            else code_string in
  let s2 := if endswith s1 "```" then slice_drop_last 3 s1 else s1 in
  lstrip s2.

(** The rewriting of [new_file_contents] at the start of
    [EditFileTool._use], as [EditFileTool_use_] does it. *)
Definition EditFileTool_normalise (s0 : string) : string :=
  let s1 := if startswith s0 "```python" then slice_from 9 s0 else s0 in
  let s2 := if endswith s1 "```" then slice_drop_last 3 s1 else s1 in
  lstrip s2.

(* ------------------------------------------------------------------ *)
(** ** codebase.py: loading from and writing to disk *)

(** [Codebase.PATTERNS] *)
Definition PATTERNS : list string := ["**/*.py"; "**/*.toml"].

(** Whether [Path.glob(pattern)], for a pattern [**/*<suffix>], yields a
    file: [**] matches any directory (hidden ones included) and [*] any
    name, so the file's name must end with the suffix. *)
Definition glob_matches (pattern rel : string) : bool :=
  endswith (path_name rel) (slice_from 4 pattern).

(** [any(part.startswith(".") for part in relative_file_path.parts)] *)
Definition is_hidden (rel : string) : bool :=
  existsb (fun part => startswith part ".") (path_parts rel).

(** [Codebase.__init__]. [listing] holds the entries below the codebase
    root, files and directories alike, in the order the globs yield them,
    each as its path relative to the root and the outcome of [read_text()]
    on it: its text, or the exception reading it raises ([IsADirectoryError]
    on a directory, [UnicodeDecodeError] on bytes that are not UTF-8, ...).
    The first exception escapes. *)
Definition Codebase_init (listing : list (string * (PyExc + string))) : PyExc + Codebase :=
  fold_left
    (fun acc pattern =>
       fold_left
         (fun acc fc =>
            match acc with
            | inl e => inl e
            | inr cb =>
                if glob_matches pattern (fst fc) && negb (is_hidden (fst fc)) then
                  match snd fc with
                  | inl e => inl e
                  | inr s => inr (add_file (fst fc) (VStr s) cb)
                  end
                else inr cb
            end)
         listing acc)
    PATTERNS (inr []).

(** The files below [output_path/codebase], by their components below it,
    with their text. *)
Definition Disk := list (list string * string).

(** A path of a source file that names a file below [output_path/codebase]
    by its components alone: relative, with no [..] component. *)
Definition plain_path (p : string) : bool :=
  negb (startswith p "/") && negb (existsb (String.eqb "..") (path_parts p)).

(** The directories a file at [parts] sits in, below the codebase
    directory: its proper non-empty prefixes. *)
Definition dir_prefixes (parts : list string) : list (list string) :=
  map (fun k => firstn k parts) (seq 1 (length parts - 1)).

Fixpoint list_string_eqb (a b : list string) : bool :=
  match a, b with
  | [], [] => true
  | x :: a', y :: b' => String.eqb x y && list_string_eqb a' b'
  | _, _ => false
  end.

Definition is_file (d : Disk) (parts : list string) : bool :=
  existsb (fun e => list_string_eqb (fst e) parts) d.

(** A directory exists at [parts]: the codebase directory itself, or a
    directory some written file sits in. *)
Definition is_dir (d : Disk) (parts : list string) : bool :=
  match parts with
  | [] => true
  | _ => existsb (fun e => existsb (list_string_eqb parts) (dir_prefixes (fst e))) d
  end.

(** The exceptions of the file system calls: [mkdir] on a path below a
    file raises [FileExistsError] (the parent itself is a file) or
    [NotADirectoryError] (a directory above it is a file), both [OSError]s;
    opening a directory for writing raises [IsADirectoryError]. *)
Inductive DiskExc :=
| PyErr (e : PyExc)
| MkdirError (cls path : string)
| IsADirectoryError (path : string).

(** The Python exception a [DiskExc] is. *)
Definition disk_exc (e : DiskExc) : PyExc :=
  match e with
  | PyErr e => e
  | MkdirError cls p => OSError cls p
  | IsADirectoryError p => OSError "IsADirectoryError" p
  end.

(** Writing [s] to the file at [parts]: an existing file is overwritten. *)
Fixpoint disk_write (parts : list string) (s : string) (d : Disk) : Disk :=
  match d with
  | [] => [(parts, s)]
  | (q, s') :: d' =>
      if list_string_eqb q parts then (q, s) :: d' else (q, s') :: disk_write parts s d'
  end.

(** The outcome of [Codebase.write_codebase_to_disk]: the files written, an
    exception, or a write to a path that leaves [output_path/codebase]
    (absolute, or through [..]), which the model does not follow. *)
Inductive WriteOutcome :=
| Written (d : Disk)
| WriteRaised (e : DiskExc) (d : Disk)
| LeavesSnapshot (path : string) (d : Disk).

(** The loop body of [write_codebase_to_disk] for one source file:
    [file_path.parent.mkdir(parents=True, exist_ok=True)] fails on a
    parent that exists as a file; the argument [source_file.contents] is
    evaluated next, then [write_text] checks it is a [str] and opens the
    path, which fails on a directory. *)
Definition write_source_file (d : Disk) (sf : SourceFile) : WriteOutcome :=
  let rel := relative_file_path sf in
  if negb (plain_path rel) then LeavesSnapshot rel d else
  let parts := path_parts rel in
  if existsb (is_file d) (dir_prefixes parts) then
    WriteRaised (MkdirError (if is_file d (removelast parts) then "FileExistsError"
                             else "NotADirectoryError") rel) d else
  match contents sf with
  | None => WriteRaised (PyErr (IndexError "list index out of range")) d
  | Some (VOther t _) => WriteRaised (PyErr (TypeError (cat ["data must be str, not "; t]))) d
  | Some (VStr s) =>
      if is_dir d parts then WriteRaised (IsADirectoryError rel) d
      else Written (disk_write parts s d)
  end.

Fixpoint write_source_files (d : Disk) (sfs : list SourceFile) : WriteOutcome :=
  match sfs with
  | [] => Written d
  | sf :: sfs' =>
      match write_source_file d sf with
      | Written d' => write_source_files d' sfs'
      | o => o
      end
  end.

(** [Codebase.write_codebase_to_disk(output_path)]: a missing output path
    raises [ValueError]; otherwise [output_path/codebase] is removed,
    recreated empty, and the files are written in the dict's order. *)
Definition write_codebase_to_disk (output_path : string) (output_exists : bool)
    (cb : Codebase) : WriteOutcome :=
  if negb output_exists then
    WriteRaised (PyErr (ValueError (cat ["Output path '"; output_path; "' does not exist."]))) []
  else write_source_files [] (map snd cb).

(** Reading back the text of the file at [parts]. *)
Fixpoint read_disk (d : Disk) (parts : list string) : option string :=
  match d with
  | [] => None
  | (q, s) :: d' => if list_string_eqb q parts then Some s else read_disk d' parts
  end.

(* ------------------------------------------------------------------ *)
(** ** tools/tools.py: the tools' [_use] *)

Section ToolUse.

(** [lint_code] (tools/utils.py) runs Ruff, an external program, on a code
    string: its list of violations, or [None] when Ruff printed nothing. *)
Variable lint_code : string -> option (list string).

(** [docker run ... image bash -c command] on a fresh temporary directory
    holding the codebase as it is at the call. *)
Variable docker_run : string -> string -> Codebase -> SandboxRun.

(** The outcome of writing a source file whose path leaves the snapshot
    directory [temp_dir/codebase] (absolute, or through [..]): the file
    system outside it is not modelled; [None] is a write that succeeds. *)
Variable write_outside : SourceFile -> option PyExc.

(** [agent.codebase.write_codebase_to_disk(output_path=temp_dir)] on the
    fresh temporary directory, which exists: the files are written in the
    dict's order, and the first exception is raised. *)
Fixpoint write_files_to_temp (d : Disk) (sfs : list SourceFile) : PyExc + Disk :=
  match sfs with
  | [] => inr d
  | sf :: sfs' =>
      match write_source_file d sf with
      | Written d' => write_files_to_temp d' sfs'
      | WriteRaised e _ => inl (disk_exc e)
      | LeavesSnapshot _ d' =>
          match write_outside sf with
          | Some e => inl e
          | None => write_files_to_temp d' sfs'
          end
      end
  end.

(** The review comment built from the lint results ([if lint_results:]). *)
Definition review_of (intro : string) (lint_results : option (list string)) : option string :=
  match lint_results with
  | Some ((_ :: _) as l) =>
      Some (cat [intro; nl; "* "; String.concat (cat [nl; "* "]) l; nl; nl;
                 "Please address these issues before continuing."])
  | _ => None
  end.

(** [SourceFile.contents]: [self.versions[-1]]. *)
Definition contents_of (sf : SourceFile) : M PyVal :=
  match contents sf with
  | Some c => ret c
  | None => raise (IndexError "list index out of range")
  end.

(** [OpenFileTool._use] *)
Definition OpenFileTool_use_ (t : Tool) : M Observation :=
  fp <- getitem t "file_path";;
  modify (set_open_file (Some fp));;;
  cb <- gets codebase;;
  sf <- lift (retrieve_file (Some fp) cb);;
  c <- contents_of sf;;
  ret (mkObservation
         (cat ["Opened the file '"; py_str fp; "'. "; "Contents of "; py_str fp; ": "; nl;
               "```python"; nl; py_str c; nl; "```"])
         (cat ["Opened the file '"; py_str fp; "'"]) false None true (Some c) None).

(** [None] seen as a Python object, for method calls on it. *)
Definition py_of_option (o : option PyVal) : PyVal :=
  match o with Some v => v | None => VOther "NoneType" "None" end.

(** [EditFileTool._use]. The local [python_file] is assigned on the [.py]
    branch only, and read when the description is built. *)
Definition EditFileTool_use_ (t : Tool) : M Observation :=
  commit_message <- getitem t "commit_message";;
  nc <- getitem t "new_file_contents";;
  file_path <- gets open_file_relative_path;;
  s0 <- as_str nc "startswith";;
  let s1 := if startswith s0 "```python" then slice_from 9 s0 else s0 in
  let s2 := if endswith s1 "```" then slice_drop_last 3 s1 else s1 in
  let new_contents := lstrip s2 in
  cb <- gets codebase;;
  cb' <- lift (edit_file file_path (VStr new_contents) cb);;
  modify (set_codebase cb');;;
  p <- as_str (py_of_option file_path) "endswith";;
  let '(lint_results, python_file) :=
    if endswith p ".py" then (lint_code new_contents, Some true) else (None, None) in
  let review_comment := review_of "The code you provided has the following issues:" lint_results in
  pf <- read_local "python_file" python_file;;
  ret (mkObservation
         (cat ["Edited the file '"; p; "'."; nl; "Commit message: '"; py_str commit_message; "'.";
               nl; "New contents of "; p; ":"; nl; "```"; if pf then "python" else ""; nl;
               new_contents; nl; "```"])
         (cat ["Edited the file '"; p; "'."; nl; "Commit message: "; py_str commit_message])
         false None true (Some (VStr new_contents)) review_comment).

(** [Path(p)] in [SourceFile.__init__] accepts a [str] only (here). *)
Definition path_of (v : PyVal) : M string :=
  match v with
  | VStr s => ret s
  | VOther t _ => raise (TypeError (cat ["expected str, bytes or os.PathLike object, not "; t]))
  end.

(** [temp_file.write(code_string)] in [lint_code]. *)
Definition write_str (v : PyVal) : M string :=
  match v with
  | VStr s => ret s
  | VOther t _ => raise (TypeError (cat ["write() argument must be str, not "; t]))
  end.

(** [CreateFileTool._use]; here too [python_file] is set on the [.py]
    branch only. *)
Definition CreateFileTool_use_ (t : Tool) : M Observation :=
  file_path <- getitem t "file_path";;
  file_contents <- getitem t "file_contents";;
  p <- path_of file_path;;
  cb <- gets codebase;;
  modify (set_codebase (add_file p file_contents cb));;;
  modify (set_open_file (Some file_path));;;
  lr <- (if endswith p ".py" then
           code <- write_str file_contents;; ret (lint_code code, Some true)
         else ret (None, None));;
  let '(lint_results, python_file) := lr in
  let review_comment :=
    review_of "The code you provided for the new file has the following issues:" lint_results in
  cb2 <- gets codebase;;
  pf <- read_local "python_file" python_file;;
  ret (mkObservation
         (cat ["Created a new file '"; p; "', and opened it in the file editor."; nl;
               "The codebase now contains the following files:"; nl;
               formatted_relative_file_paths cb2; nl; nl; "Contents of "; p; ":"; nl;
               "```"; if pf then "python" else ""; nl; py_str file_contents; nl; "```"])
         (cat ["Created a new file '"; p; "'"])
         false None true (Some file_contents) review_comment).

(** [self.ENVIRONMENT_TO_IMAGE[environment]] *)
Definition image_of (env : PyVal) : M string :=
  match env with
  | VStr e => match Dict.get e ENVIRONMENT_TO_IMAGE with
              | Some i => ret i
              | None => raise (KeyError e)
              end
  | VOther _ t => raise (KeyError t)
  end.

(** [RunPythonScriptTool._use] *)
Definition RunPythonScriptTool_use_ (t : Tool) : M Observation :=
  script_path <- getitem t "script_path";;
  let script_arguments :=
    match Dict.get "script_arguments" (arguments t) with Some v => v | None => VStr "" end in
  environment <- getitem t "environment";;
  docker_image <- image_of environment;;
  cb <- gets codebase;;
  _ <- lift (write_files_to_temp [] (map snd cb));;
  let r := docker_run docker_image
             (cat ["pip install . && python -B "; py_str script_path; " ";
                   py_str script_arguments;
                   " > /workspace/stdout.txt 2> /workspace/stderr.txt"]) cb in
  lift (RunPythonScriptTool_observation (py_str script_path) (py_str environment) r).

(** [RunAllTestsTool._use] *)
Definition RunAllTestsTool_use_ (t : Tool) : M Observation :=
  environment <- getitem t "environment";;
  docker_image <- image_of environment;;
  cb <- gets codebase;;
  _ <- lift (write_files_to_temp [] (map snd cb));;
  let r := docker_run docker_image
             (cat ["pip install --no-python-version-warning --disable-pip-version-check ";
                   "--user -q . && pytest > /workspace/stdout.txt 2> /workspace/stderr.txt"]) cb in
  lift (RunAllTestsTool_observation (py_str environment) r).

(** [CompleteTaskTool._use] *)
Definition CompleteTaskTool_use_ (t : Tool) : M Observation :=
  modify (set_task_completed true);;;
  ret (mkObservation "Task completed." "Task completed." false None false None None).

(** [self._use(agent)], dispatched on the tool's class. *)
Definition Tool_use_ (t : Tool) : M Observation :=
  match kind t with
  | OpenFileTool => OpenFileTool_use_ t
  | EditFileTool => EditFileTool_use_ t
  | CreateFileTool => CreateFileTool_use_ t
  | RunPythonScriptTool => RunPythonScriptTool_use_ t
  | RunAllTestsTool => RunAllTestsTool_use_ t
  | CompleteTaskTool => CompleteTaskTool_use_ t
  end.

(** [Tool.use(agent)]:
<<
        try:
            self.self.validate_arguments()
        except ValueError as exc:
            observation = Observation(step=self.step, description=str(exc))
        else:
            observation = self._use(agent)
>>
    The statement in the [try] first looks up the attribute [self] of the
    tool; were it found, its [validate_arguments()] would be called without
    the [agent] argument. The handler first looks up [self.step]. *)
Definition Tool_use (t : Tool) : M Observation :=
  try_except_ValueError_else
    (getattr_tool t "self";;;
     raise (TypeError "validate_arguments() missing 1 required positional argument: 'agent'"))
    (fun _ =>
       getattr_tool t "step";;;
       raise (TypeError "Observation.__init__() got an unexpected keyword argument 'step'"))
    (fun _ : unit => Tool_use_ t).

End ToolUse.

(* ------------------------------------------------------------------ *)
(** ** messages.py *)

(** The three message classes of the log. [AssistantMessage] keeps the
    summarised tool arguments its [__init__] computed. *)
Inductive Message :=
| InstanceMessage (instance_prompt : string)
| AssistantMessage (thought tool_id tool_name : string)
    (tool_arguments summarised_tool_arguments : list (string * PyVal))
| UserMessage (tool_id observation summarised_observation next_step_prompt : string)
    (review_comment : option string).

(** [AssistantMessage.create_summarised_tool_arguments] *)
Definition create_summarised_tool_arguments (tool_name : string)
    (tool_arguments : list (string * PyVal)) : PyExc + list (string * PyVal) :=
  if String.eqb tool_name "edit_file" then
    match Dict.get "commit_message" tool_arguments with
    | None => inl (KeyError "commit_message")
    | Some cm =>
        inr [("commit_message", cm);
             ("new_file_contents",
              VStr "The full, updated contents of the file. Not shown here for brevity.")]
    end
  else inr tool_arguments.

(** [AssistantMessage(thought, tool_id, tool_name, tool_arguments)] *)
Definition make_AssistantMessage (thought tool_id tool_name : string)
    (tool_arguments : list (string * PyVal)) : PyExc + Message :=
  match create_summarised_tool_arguments tool_name tool_arguments with
  | inl e => inl e
  | inr s => inr (AssistantMessage thought tool_id tool_name tool_arguments s)
  end.

Definition args_json (args : list (string * PyVal)) : Json :=
  JDict (map (fun kv => (fst kv, JVal (snd kv))) args).

Definition text_block (s : string) : Json := JDict [("type", JStr "text"); ("text", JStr s)].

(** [InstanceMessage.return_json_message()] *)
Definition InstanceMessage_json (instance_prompt : string) : Json :=
  JDict [("role", JStr "user"); ("content", JList [text_block instance_prompt])].

(** [AssistantMessage.return_json_message(summarised)] *)
Definition AssistantMessage_json (thought tool_id tool_name : string)
    (tool_arguments summarised_tool_arguments : list (string * PyVal)) (summarised : bool) : Json :=
  let args := if summarised then summarised_tool_arguments else tool_arguments in
  JDict [("role", JStr "assistant");
         ("content", JList [text_block thought;
                            JDict [("type", JStr "tool_use"); ("id", JStr tool_id);
                                   ("name", JStr tool_name); ("input", args_json args)]])].

(** [if self.review_comment]: [None] and the empty string are falsy. *)
Definition truthy (o : option string) : bool :=
  match o with Some s => negb (String.eqb s "") | None => false end.

(** [UserMessage.return_json_message(summarised, include_review_comment)] *)
Definition UserMessage_json (tool_id observation summarised_observation next_step_prompt : string)
    (review_comment : option string) (summarised include_review_comment : bool) : Json :=
  let tool_result_content := if summarised then summarised_observation else observation in
  let content := [JDict [("type", JStr "tool_result"); ("tool_use_id", JStr tool_id);
                         ("content", JStr tool_result_content)]] in
  let content :=
    if truthy review_comment && include_review_comment then
      content ++ [text_block (match review_comment with Some c => c | None => "" end)]
    else content in
  let content := content ++ [text_block next_step_prompt] in
  JDict [("role", JStr "user"); ("content", JList content)].

(** The per-message branch of [MessageLog.return_messages_list]. *)
Definition message_json (m : Message) (summarised : bool) : Json :=
  match m with
  | InstanceMessage p => InstanceMessage_json p
  | AssistantMessage th id nm a sa => AssistantMessage_json th id nm a sa summarised
  | UserMessage id o so nsp rc => UserMessage_json id o so nsp rc summarised true
  end.

(** [for num, message in enumerate(self.messages)] starting at [num]. *)
Fixpoint render_from (summarise_until : Z) (num : nat) (msgs : list Message) : list Json :=
  match msgs with
  | [] => []
  | m :: ms =>
      let summarised := if (Z.of_nat num >=? summarise_until)%Z then false else true in
      message_json m summarised :: render_from summarise_until (S num) ms
  end.

(** [MessageLog.return_messages_list(summarise_before_last)] *)
Definition return_messages_list (messages : list Message) (summarise_before_last : option Z)
    : list Json :=
  let num_messages := Z.of_nat (length messages) in
  let summarise_until :=
    match summarise_before_last with
    | None => 0%Z
    | Some k => (num_messages - k)%Z
    end in
  render_from summarise_until 0 messages.

(* ------------------------------------------------------------------ *)
(** ** agent.py and trajectory.py: the run loop *)

(** A [TrajectoryStep] (the fields that do not bear on the loop are left
    out). *)
Record TrajectoryStep := mkTrajectoryStep {
  ts_step_number : nat;
  ts_thought : string;
  ts_tool_name : string
}.

(** What the body of [Agent.step] after [self.step_number += 1] does: the
    model call, the parsing of its response, the tool's creation and
    [Tool.use], and the messages either raise an exception ([StepRaised]),
    or reach [self.trajectory.add_step] ([StepRecorded]); [completed] says
    whether [task_completed] was set on the way. *)
Inductive StepResult :=
| StepRaised (completed : bool)
| StepRecorded (completed : bool) (thought tool_name : string).

Definition is_recorded (r : StepResult) : bool :=
  match r with StepRecorded _ _ _ => true | StepRaised _ => false end.

Record RunState := mkRunState {
  rs_step_number : nat;
  rs_task_completed : bool;
  rs_trajectory : list TrajectoryStep
}.

(** The agent as [Agent.__init__] leaves it. *)
Definition initial_run_state : RunState := mkRunState 0 false [].

(** The state at which [Agent.finish(error_occured)] is called; it writes
    the codebase and [trajectory.json] ([rs_trajectory]). *)
Record Finished := mkFinished {
  final_state : RunState;
  error_occured : bool
}.

Section RunLoop.

(** The outcome of the body of the step with each number. *)
Variable step_body : nat -> StepResult.

(** [Agent.step]: the counter is incremented first; the record, numbered
    with it, is appended last. The boolean says whether it raised. *)
Definition Agent_step (st : RunState) : bool * RunState :=
  let n := S (rs_step_number st) in
  match step_body n with
  | StepRaised c => (true, mkRunState n (rs_task_completed st || c) (rs_trajectory st))
  | StepRecorded c th tn =>
      (false, mkRunState n (rs_task_completed st || c)
                (rs_trajectory st ++ [mkTrajectoryStep n th tn]))
  end.

(** The [while not self.task_completed] loop of [Agent.run], run for at
    most [fuel] tests of its condition: [None] when it has not exited by
    then. An exception is logged, sets [error_occured], and the loop goes on. *)
Fixpoint run_loop (fuel : nat) (st : RunState) (err : bool) : option Finished :=
  match fuel with
  | O => None
  | S f =>
      if rs_task_completed st then Some (mkFinished st err)
      else let '(raised, st') := Agent_step st in run_loop f st' (err || raised)
  end.

(** [Agent.run]: the loop, then [self.finish(error_occured)]. *)
Definition Agent_run (fuel : nat) : option Finished := run_loop fuel initial_run_state false.

End RunLoop.

(* ------------------------------------------------------------------ *)
(** ** Sequences of tool calls *)

(** A call of a tool on the agent: through [Tool.use], or through the two
    methods [Tool.use]'s body names, [validate_arguments] and then, when it
    returned normally, [_use]. *)
Inductive Call := CallUse (t : Tool) | CallValidated (t : Tool).

Definition call_tool (c : Call) : Tool := match c with CallUse t | CallValidated t => t end.

Definition exec_call lint_code docker_run write_outside (c : Call) (ag : Agent) : Agent :=
  match c with
  | CallUse t => snd (Tool_use lint_code docker_run write_outside t ag)
  | CallValidated t =>
      match validate_arguments t ag with
      | (inl _, ag') => ag'
      | (inr _, ag') => snd (Tool_use_ lint_code docker_run write_outside t ag')
      end
  end.

Definition exec_calls lint_code docker_run write_outside (cs : list Call) (ag : Agent) : Agent :=
  fold_left (fun a c => exec_call lint_code docker_run write_outside c a) cs ag.

(* ------------------------------------------------------------------ *)
(** ** tools/factory.py and tools/__init__.py *)

(** [ToolFactory.TOOL_NAME_TO_CLASS] *)
Definition ToolRegistry := list (string * ToolKind).

(** [ToolFactory.register_tool(tool_class)] *)
Definition register_tool (tool_class : ToolKind) (reg : ToolRegistry) : ToolRegistry :=
  Dict.set (NAME tool_class) tool_class reg.

(** [register_all_tools()] *)
Definition register_all_tools (reg : ToolRegistry) : ToolRegistry :=
  fold_left (fun r k => register_tool k r)
    [OpenFileTool; EditFileTool; CreateFileTool; RunPythonScriptTool; RunAllTestsTool;
     CompleteTaskTool] reg.

(** [ToolFactory.create_tool(tool_name, **kwargs)]; [Tool.__init__] finds
    [NAME], [DESCRIPTION] and [PARAMETERS] set on every tool class and
    stores [kwargs]. *)
Definition create_tool (reg : ToolRegistry) (tool_name : string)
    (kwargs : list (string * PyVal)) : PyExc + Tool :=
  match Dict.get tool_name reg with
  | None => inl (ValueError (cat ["Unknown tool: "; tool_name]))
  | Some tool_class => inr (mkTool tool_class kwargs)
  end.

(* ------------------------------------------------------------------ *)
(** ** llm.py *)

(** The content blocks of a response of the messages API. *)
Inductive ContentBlock :=
| TextBlock (text : string)
| ToolUseBlock (id name : string) (input : list (string * PyVal))
| OtherBlock (class : string).

Record LMResponse := mkLMResponse {
  stop_reason : option string;
  content : list ContentBlock
}.

(** [ToolUseResponse] *)
Record ToolUseResponse := mkToolUseResponse {
  thought : string;
  tool_id : string;
  tool_name : string;
  tool_arguments : list (string * PyVal)
}.

Definition block_class (b : ContentBlock) : string :=
  match b with TextBlock _ => "TextBlock" | ToolUseBlock _ _ _ => "ToolUseBlock" | OtherBlock c => c end.

Definition no_attribute (b : ContentBlock) (a : string) : PyExc :=
  AttributeError (cat ["'"; block_class b; "' object has no attribute '"; a; "'"]).

(** [parse_tool_use_response(response)] *)
Definition parse_tool_use_response (response : LMResponse) : PyExc + ToolUseResponse :=
  let sr := stop_reason response in
  if negb (match sr with Some s => String.eqb s "tool_use" | None => false end) then
    inl (ValueError (cat ["Unexpected stop reason: "; match sr with Some s => s | None => "None" end;
                          ". Expected 'tool_use'."]))
  else
    match nth_error (content response) 0 with
    | None => inl (IndexError "list index out of range")
    | Some thought_block =>
        match thought_block with
        | TextBlock thought =>
            match nth_error (content response) 1 with
            | None => inl (IndexError "list index out of range")
            | Some (ToolUseBlock id nm input) => inr (mkToolUseResponse thought id nm input)
            | Some b => inl (no_attribute b "id")
            end
        | b => inl (no_attribute b "text")
        end
    end.

(* ------------------------------------------------------------------ *)
(** ** Auxiliary notions of the further properties *)

(** One pass of the loop of [Codebase.__init__] over the listing, for one
    pattern. *)
Definition init_pass (pattern : string) (l : list (string * string)) (cb : Codebase) : Codebase :=
  fold_left
    (fun cb fc =>
       if glob_matches pattern (fst fc) && negb (is_hidden (fst fc))
       then add_file (fst fc) (VStr (snd fc)) cb else cb) l cb.

(** The same pass with the reads of [read_text()], which may raise. *)
Definition init_pass_exc (pattern : string) (l : list (string * (PyExc + string)))
    (acc : PyExc + Codebase) : PyExc + Codebase :=
  fold_left
    (fun acc fc =>
       match acc with
       | inl e => inl e
       | inr cb =>
           if glob_matches pattern (fst fc) && negb (is_hidden (fst fc)) then
             match snd fc with
             | inl e => inl e
             | inr s => inr (add_file (fst fc) (VStr s) cb)
             end
           else inr cb
       end) l acc.

(** An entry with the text read from it; one whose read raises gets [""],
    which is never used. *)
Definition read_ok (fc : string * (PyExc + string)) : string * string :=
  (fst fc, match snd fc with inr s => s | inl _ => "" end).

(** The files that pass adds: the name matches and no part is hidden. *)
Definition init_keep (pattern : string) (fc : string * string) : bool :=
  glob_matches pattern (fst fc) && negb (is_hidden (fst fc)).

(** The text [write_codebase_to_disk] writes for a file: its latest version. *)
Definition str_contents (sf : SourceFile) : string :=
  match contents sf with Some (VStr s) => s | _ => "" end.

(** The disk entry written for a file of the codebase. *)
Definition disk_entry (e : string * SourceFile) : list string * string :=
  (path_parts (fst e), str_contents (snd e)).

(** A codebase [write_codebase_to_disk] writes without raising: every file
    is stored under its own relative path, which stays inside the snapshot and
    names a file; its latest version is a [str]; no two paths name the same
    file, and no path is a directory of another. *)
Definition writable (cb : Codebase) : Prop :=
  (forall p sf, In (p, sf) cb ->
     relative_file_path sf = p /\ plain_path p = true /\ path_parts p <> [] /\
     exists s, contents sf = Some (VStr s)) /\
  NoDup (map (fun e => path_parts (fst e)) cb) /\
  (forall p q, In p (Dict.keys cb) -> In q (Dict.keys cb) ->
     ~ In (path_parts p) (dir_prefixes (path_parts q))).

(** A [VOther] value stands for an object whose class is not [str]. *)
Definition str_tagged (v : PyVal) : bool :=
  match v with VStr _ => true | VOther t _ => negb (String.eqb t "str") end.

(** The arguments of a tool all respect that reading. *)
Definition args_str_tagged (args : list (string * PyVal)) : bool :=
  forallb (fun kv => str_tagged (snd kv)) args.

(** A computation that leaves the agent as it found it. *)
Definition state_preserving {A} (m : M A) : Prop := forall ag, snd (m ag) = ag.

(** Whether the body of a step set [task_completed]. *)
Definition completes (r : StepResult) : bool :=
  match r with StepRaised c => c | StepRecorded c _ _ => c end.

(** Sample entries below a codebase root, with a hidden file, a hidden
    directory whose name ends in [.py], and a README. *)
Definition sample_listing : list (string * (PyExc + string)) :=
  [("pyproject.toml", inr "[project]"); ("src/app.py", inr "print(1)"); (".venv/lib.py", inr "x");
   (".cache/old.py", inl (OSError "IsADirectoryError" ".cache/old.py"));
   ("README.md", inr "hi"); ("tests/test_app.py", inr "assert True")].

(** A sample codebase: an edited module and a [pyproject.toml]. *)
Definition sample_codebase : Codebase :=
  [("src/app.py", mkSourceFile "src/app.py" [VStr "print(0)"; VStr "print(1)"]);
   ("pyproject.toml", mkSourceFile "pyproject.toml" [VStr "[project]"])].

(** An agent on [sample_codebase], with [src/app.py] open. *)
Definition sample_agent : Agent := mkAgent sample_codebase (Some (VStr "src/app.py")) 2 false.

(** A run whose first step is recorded, whose second raises, and whose
    third completes the task. *)
Definition sample_steps (n : nat) : StepResult :=
  match n with
  | 1 => StepRecorded false "look" "open_file"
  | 2 => StepRaised false
  | 3 => StepRecorded true "done" "complete_task"
  | _ => StepRaised false
  end.

(* ------------------------------------------------------------------ *)
(** ** Fixtures and auxiliary notions *)

(** The exception Python raises on reading [python_file] unassigned. *)
Definition python_file_unbound : PyExc :=
  UnboundLocalError "cannot access local variable 'python_file' where it is not associated with a value".

(** A [.toml] file, which [Codebase.PATTERNS] ingests, opened and edited. *)
Definition toml_agent : Agent :=
  mkAgent [("pyproject.toml", mkSourceFile "pyproject.toml" [VStr "[project]"])]
          (Some (VStr "pyproject.toml")) 3 false.

(** The first line of a [run_python_script] observation on [main.py]. *)
Definition ran_main : string :=
  "Ran the Python script 'main.py' in the 'python3' environment.".

(** The blocks of a rendered [UserMessage] that follow its tool result. *)
Definition user_trailing_blocks (next_step_prompt : string) (rc : option string) : list Json :=
  (if truthy rc then [text_block (match rc with Some c => c | None => "" end)] else [])
  ++ [text_block next_step_prompt].

(** A run whose first step raises (the model answered without a tool call,
    say) and whose second step completes the task. *)
Definition raise_then_complete (k : nat) : StepResult :=
  if Nat.eqb k 1 then StepRaised false else StepRecorded true "done" "complete_task".

(** Every file has at least one version, and its contents is the last. *)
Definition wf_codebase (cb : Codebase) : Prop :=
  forall p sf, Dict.get p cb = Some sf ->
    exists pre v, versions sf = pre ++ [v] /\ contents sf = Some v.

(** Every file of [cb] is still in [cb'], its old versions a prefix of the
    new list. *)
Definition history_extends (cb cb' : Codebase) : Prop :=
  forall p sf, Dict.get p cb = Some sf ->
    exists sf' ext, Dict.get p cb' = Some sf' /\ versions sf' = versions sf ++ ext.

(** Creating [main.py], then editing the open [pyproject.toml]. *)
Definition create_then_edit : list Call :=
  [CallValidated (mkTool CreateFileTool [("file_path", VStr "main.py"); ("file_contents", VStr "print(1)")]);
   CallValidated (mkTool EditFileTool [("commit_message", VStr "bump"); ("new_file_contents", VStr "[tool]")])].

(* ================================================================== *)
(** * Properties *)

(** ** Dict lemmas *)

Lemma Dict_get_set_eq {V} (k : string) (v : V) d : Dict.get k (Dict.set k v d) = Some v.
Proof.
  induction d as [|[k' v'] d IH]; simpl.
  - now rewrite String.eqb_refl.
  - destruct (String.eqb k k') eqn:E; simpl; rewrite ?E; [reflexivity|exact IH].
Qed.

Lemma Dict_get_set_ne {V} (k k2 : string) (v : V) d :
  k <> k2 -> Dict.get k2 (Dict.set k v d) = Dict.get k2 d.
Proof.
  intros Hne. induction d as [|[k' v'] d IH]; simpl.
  - apply String.eqb_neq in Hne. rewrite String.eqb_sym, Hne. reflexivity.
  - destruct (String.eqb k k') eqn:E; simpl.
    + apply String.eqb_eq in E. subst k'.
      apply String.eqb_neq in Hne. now rewrite String.eqb_sym, Hne.
    + destruct (String.eqb k2 k'); [reflexivity|exact IH].
Qed.

Lemma Dict_mem_get {V} (k : string) (d : list (string * V)) :
  Dict.mem k d = false -> Dict.get k d = None.
Proof.
  unfold Dict.mem, Dict.keys. induction d as [|[k' v'] d IH]; simpl; [reflexivity|].
  intros H. apply orb_false_iff in H as [H1 H2]. rewrite H1. exact (IH H2).
Qed.

Lemma Dict_get_mem {V} (k : string) (v : V) (d : list (string * V)) :
  Dict.get k d = Some v -> Dict.mem k d = true.
Proof.
  intros H. destruct (Dict.mem k d) eqn:E; [reflexivity|].
  rewrite (Dict_mem_get _ _ E) in H. discriminate.
Qed.

(** ** The tool descriptors *)

(** Claim C9. A parameter descriptor cannot carry an enumeration: the
    [Parameter] dataclass has no [enum] field, so the declarations of
    [RunPythonScriptTool.PARAMETERS] and [RunAllTestsTool.PARAMETERS], which
    pass [enum=["python2", "python3"]], raise [TypeError], and neither tool
    has a descriptor ([json_description]). *)
Theorem enum_parameter_declaration_raises :
  PARAMETERS RunPythonScriptTool =
    inl (TypeError "Parameter.__init__() got an unexpected keyword argument 'enum'") /\
  PARAMETERS RunAllTestsTool =
    inl (TypeError "Parameter.__init__() got an unexpected keyword argument 'enum'") /\
  json_description RunPythonScriptTool =
    inl (TypeError "Parameter.__init__() got an unexpected keyword argument 'enum'") /\
  json_description RunAllTestsTool =
    inl (TypeError "Parameter.__init__() got an unexpected keyword argument 'enum'").
Proof. repeat split. Qed.

(** The tools whose parameters carry no [enum] do have descriptors. *)
Example open_file_descriptor_ok : exists j, json_description OpenFileTool = inr j.
Proof. eexists. reflexivity. Qed.

(** ** [Tool.use] *)

Lemma self_not_an_attribute k : existsb (String.eqb "self") (tool_attributes k) = false.
Proof. destruct k; reflexivity. Qed.

(** Claim C1. [Tool.use] never validates: looking up [self.self] raises
    [AttributeError], which the [except ValueError] clause does not catch,
    so it escapes to the caller, for every tool, every argument map and
    every agent, and the agent is left as it was. *)
Theorem Tool_use_raises_AttributeError lint_code docker_run write_outside (t : Tool) (ag : Agent) :
  Tool_use lint_code docker_run write_outside t ag =
    (inl (AttributeError (cat ["'"; class_name (kind t); "' object has no attribute 'self'"])), ag).
Proof.
  unfold Tool_use, try_except_ValueError_else, bind, getattr_tool.
  rewrite self_not_an_attribute. reflexivity.
Qed.

(** ** Validation leaves the agent unchanged *)

(** Case analysis on the lookups and tests of a method body. *)
Ltac py_cases :=
  repeat (simpl; match goal with
                 | |- context [Dict.get ?k ?d] => destruct (Dict.get k d)
                 | |- context [if ?b then _ else _] => destruct b
                 end).

Lemma validate_all_parameters_present_state t ps ag :
  snd (validate_all_parameters_present t ps ag) = ag.
Proof.
  induction ps as [|p ps IH]; simpl; [reflexivity|].
  destruct (required p && negb (Dict.mem (name p) (arguments t))); [reflexivity|exact IH].
Qed.

Lemma validate_argument_types_state t ps ag :
  snd (validate_argument_types t ps ag) = ag.
Proof.
  induction ps as [|p ps IH]; simpl; [reflexivity|].
  destruct (Dict.get (name p) (arguments t)); [|exact IH].
  destruct (negb _); [reflexivity|exact IH].
Qed.

Lemma validate_argument_values_state t ag : snd (validate_argument_values t ag) = ag.
Proof.
  unfold validate_argument_values, bind, getitem, gets, ret, raise.
  destruct (kind t); py_cases; reflexivity.
Qed.

Lemma validate_arguments_state t ag : snd (validate_arguments t ag) = ag.
Proof.
  unfold validate_arguments, bind, lift.
  destruct (PARAMETERS (kind t)) as [e|ps]; [reflexivity|].
  pose proof (validate_all_parameters_present_state t ps ag) as H1.
  destruct (validate_all_parameters_present t ps ag) as [[e|[]] ag1]; simpl in H1; subst; [reflexivity|].
  pose proof (validate_argument_values_state t ag) as H2.
  destruct (validate_argument_values t ag) as [[e|[]] ag2]; simpl in H2; subst; [reflexivity|].
  pose proof (validate_argument_types_state t ps ag) as H3.
  destruct (validate_argument_types t ps ag) as [[e|[]] ag3]; simpl in H3; subst; reflexivity.
Qed.

Lemma py_in_In p l : In p l -> py_in (VStr p) l = true.
Proof. intros H. simpl. apply existsb_exists. exists p. split; [exact H|apply String.eqb_refl]. Qed.

(** Claim C6. [create_file] with a path already in the codebase is
    rejected with no mutation: [Tool.use] raises and returns the agent
    unchanged (files, versions, open file, step counter and completion
    flag), and [validate_arguments] itself raises [ValueError], also
    without any change. *)
Theorem create_file_existing_path_rejected lint_code docker_run write_outside args ag p :
  Dict.get "file_path" args = Some (VStr p) ->
  In p (get_relative_file_paths (codebase ag)) ->
  (exists e, Tool_use lint_code docker_run write_outside (mkTool CreateFileTool args) ag = (inl e, ag)) /\
  (exists msg, validate_arguments (mkTool CreateFileTool args) ag = (inl (ValueError msg), ag)).
Proof.
  intros Hfp Hin. split.
  - eexists. apply Tool_use_raises_AttributeError.
  - pose proof (py_in_In _ _ Hin) as Hb. simpl in Hb.
    unfold validate_arguments, validate_argument_values, bind, lift, getitem, gets, ret, raise.
    simpl. rewrite (Dict_get_mem _ _ _ Hfp). simpl.
    destruct (Dict.mem "file_contents" args); simpl.
    + rewrite Hfp. simpl. rewrite Hb. eexists. reflexivity.
    + eexists. reflexivity.
Qed.

(** Claim C10. [EditFileTool._use] on an open file whose path does not end
    in [.py] raises [UnboundLocalError] for [python_file] when it builds the
    description, after the new version has been appended to the file. *)
Theorem edit_file_non_py_raises_UnboundLocalError lint_code args ag p sf cm c :
  open_file_relative_path ag = Some (VStr p) ->
  Dict.get p (codebase ag) = Some sf ->
  endswith p ".py" = false ->
  Dict.get "commit_message" args = Some cm ->
  Dict.get "new_file_contents" args = Some (VStr c) ->
  exists c',
    EditFileTool_use_ lint_code (mkTool EditFileTool args) ag =
      (inl python_file_unbound,
       set_codebase (Dict.set p (update_contents (VStr c') sf) (codebase ag)) ag).
Proof.
  intros Hopen Hsf Hpy Hcm Hnc.
  destruct ag as [cb op sn tc]; simpl in Hopen, Hsf; subst op.
  unfold EditFileTool_use_, bind, getitem, gets, lift, modify, as_str, read_local, edit_file,
    files_getitem, py_of_option. simpl.
  rewrite Hcm, Hnc. simpl. rewrite Hsf. simpl. rewrite Hpy. simpl.
  eexists. reflexivity.
Qed.

Lemma edit_file_non_py_raises_UnboundLocalError_witness :
  endswith "pyproject.toml" ".py" = false /\
  exists c',
    EditFileTool_use_ (fun _ => None)
      (mkTool EditFileTool [("commit_message", VStr "bump"); ("new_file_contents", VStr "x")])
      toml_agent =
      (inl python_file_unbound,
       set_codebase (Dict.set "pyproject.toml"
                       (update_contents (VStr c') (mkSourceFile "pyproject.toml" [VStr "[project]"]))
                       (codebase toml_agent)) toml_agent).
Proof.
  split; [reflexivity|].
  apply (edit_file_non_py_raises_UnboundLocalError (fun _ => None)
           [("commit_message", VStr "bump"); ("new_file_contents", VStr "x")]
           toml_agent "pyproject.toml" (mkSourceFile "pyproject.toml" [VStr "[project]"])
           (VStr "bump") "x"); reflexivity.
Defined.

(** ** The sandbox tools *)

(** [RunAllTestsTool], by contrast, classifies by the exit status alone. *)
Lemma run_all_tests_classified_by_exit env z out err :
  exists o,
    RunAllTestsTool_observation env (mkSandboxRun z (Some out) (Some err)) = inr o /\
    summarised_observation_description o =
      cat [cat ["Ran all tests in the codebase in the '"; env; "' environment."; nl];
           if Z.eqb z 0 then "All tests ran successfully with no errors."
           else "There were errors when running the tests."].
Proof.
  unfold RunAllTestsTool_observation, RunAllTestsTool_create_observation_description. simpl.
  destruct (Z.eqb z 0); eexists; split; reflexivity.
Qed.

Lemma create_file_existing_path_rejected_witness :
  In "pyproject.toml" (get_relative_file_paths (codebase toml_agent)) /\
  (exists e, Tool_use (fun _ => None) (fun _ _ _ => mkSandboxRun 0 None None) (fun _ => None)
               (mkTool CreateFileTool [("file_path", VStr "pyproject.toml"); ("file_contents", VStr "")])
               toml_agent = (inl e, toml_agent)) /\
  (exists msg, validate_arguments
                 (mkTool CreateFileTool [("file_path", VStr "pyproject.toml"); ("file_contents", VStr "")])
                 toml_agent = (inl (ValueError msg), toml_agent)).
Proof.
  assert (Hin : In "pyproject.toml" (get_relative_file_paths (codebase toml_agent)))
    by (simpl; left; reflexivity).
  split; [exact Hin|].
  apply (create_file_existing_path_rejected (fun _ => None) (fun _ _ _ => mkSandboxRun 0 None None)
           (fun _ => None)
           [("file_path", VStr "pyproject.toml"); ("file_contents", VStr "")] toml_agent
           "pyproject.toml" eq_refl Hin).
Defined.

(** ** Rendering the message log *)

Lemma render_from_length su n msgs : length (render_from su n msgs) = length msgs.
Proof. revert n. induction msgs as [|m ms IH]; intros n; simpl; [reflexivity|now rewrite IH]. Qed.

Lemma render_from_nth su n msgs i :
  nth_error (render_from su n msgs) i =
  option_map (fun m => message_json m (Z.of_nat (n + i) <? su)%Z) (nth_error msgs i).
Proof.
  revert n i. induction msgs as [|m ms IH]; intros n i; simpl.
  - destruct i; reflexivity.
  - destruct i as [|i]; simpl.
    + rewrite Nat.add_0_r. f_equal. f_equal.
      rewrite Z.geb_leb.
      destruct (Z.leb_spec su (Z.of_nat n)), (Z.ltb_spec (Z.of_nat n) su);
        reflexivity || lia.
    + rewrite IH. f_equal. rewrite Nat.add_succ_r. reflexivity.
Qed.

(** Claim C4. Rendering a log of [N] messages with window [Some K] renders
    the message at index [i] with [summarised = true] (the summarised tool
    arguments of an [AssistantMessage], the summarised observation of a
    [UserMessage]) exactly when [i < N - K], and in full otherwise; with
    [None] every message is rendered in full. The rendering has one entry
    per message. *)
Theorem return_messages_list_fidelity (msgs : list Message) (K : option Z) (i : nat) :
  length (return_messages_list msgs K) = length msgs /\
  nth_error (return_messages_list msgs K) i =
  option_map (fun m => message_json m
                (match K with
                 | None => false
                 | Some k => (Z.of_nat i <? Z.of_nat (length msgs) - k)%Z
                 end))
             (nth_error msgs i).
Proof.
  unfold return_messages_list. split; [apply render_from_length|].
  rewrite render_from_nth. simpl. destruct K as [k|]; [reflexivity|].
  destruct (nth_error msgs i); simpl; [|reflexivity].
  f_equal. f_equal. apply Z.ltb_ge. lia.
Qed.

(** The example of the specification: one task message and five others,
    window 2: the first four are summarised, the last two are not. *)
Example return_messages_list_six_two :
  let u := UserMessage "id" "full" "short" "next" None in
  let a := AssistantMessage "t" "id" "open_file" [] [] in
  let msgs := [InstanceMessage "task"; a; u; a; u; a] in
  return_messages_list msgs (Some 2%Z) =
    [message_json (InstanceMessage "task") true; message_json a true; message_json u true;
     message_json a true; message_json u false; message_json a false].
Proof. reflexivity. Qed.

(** Claim C8. Wherever a [UserMessage] sits in the log and whatever the
    window, its rendering is the tool result, whose content is the full or
    the summarised observation, followed by the review comment verbatim
    (when it is set and non-empty) and the next-step prompt verbatim. *)
Theorem user_message_comment_and_prompt_verbatim (msgs : list Message) (K : option Z) (i : nat)
    tool_id observation summarised_observation next_step_prompt review_comment :
  nth_error msgs i =
    Some (UserMessage tool_id observation summarised_observation next_step_prompt review_comment) ->
  exists summarised : bool,
    nth_error (return_messages_list msgs K) i =
      Some (JDict [("role", JStr "user");
                   ("content",
                    JList (JDict [("type", JStr "tool_result"); ("tool_use_id", JStr tool_id);
                                  ("content", JStr (if summarised then summarised_observation
                                                    else observation))]
                           :: user_trailing_blocks next_step_prompt review_comment))]).
Proof.
  intros H. destruct (return_messages_list_fidelity msgs K i) as [_ Hn].
  rewrite Hn, H. simpl.
  eexists. f_equal. unfold UserMessage_json, user_trailing_blocks.
  rewrite andb_true_r. destruct (truthy review_comment); reflexivity.
Qed.

Lemma user_message_comment_and_prompt_verbatim_witness :
  exists summarised : bool,
    nth_error (return_messages_list
                 [InstanceMessage "task"; AssistantMessage "t" "id" "edit_file" [] [];
                  UserMessage "id" "full" "short" "next" (Some "fix E501"); AssistantMessage "t" "id2" "open_file" []  []]
                 (Some 1%Z)) 2 =
      Some (JDict [("role", JStr "user");
                   ("content",
                    JList (JDict [("type", JStr "tool_result"); ("tool_use_id", JStr "id");
                                  ("content", JStr (if summarised then "short" else "full"))]
                           :: user_trailing_blocks "next" (Some "fix E501")))]).
Proof.
  apply (user_message_comment_and_prompt_verbatim
           [InstanceMessage "task"; AssistantMessage "t" "id" "edit_file" [] [];
            UserMessage "id" "full" "short" "next" (Some "fix E501"); AssistantMessage "t" "id2" "open_file" [] []]
           (Some 1%Z) 2 "id" "full" "short" "next" (Some "fix E501")).
  reflexivity.
Defined.

(** ** The run loop *)

Lemma run_loop_all_raise fuel st err :
  rs_task_completed st = false ->
  run_loop (fun _ => StepRaised false) fuel st err = None.
Proof.
  revert st err. induction fuel as [|f IH]; intros st err Hc; simpl; [reflexivity|].
  rewrite Hc. apply IH. reflexivity.
Qed.

(** Claim C2. When every step raises (as every step does while [Tool.use]
    raises [AttributeError], see [Tool_use_raises_AttributeError]), the
    [while not self.task_completed] loop never exits: for every bound on
    its iterations it is still running, so [finish] is never called and
    neither the codebase nor [trajectory.json] is written. *)
Theorem Agent_run_never_finishes_when_steps_raise (fuel : nat) :
  Agent_run (fun _ => StepRaised false) fuel = None.
Proof. apply run_loop_all_raise. reflexivity. Qed.

Lemma filter_seq_all (f : nat -> bool) s n :
  (forall k, s <= k < s + n -> f k = true) -> filter f (seq s n) = seq s n.
Proof.
  revert s. induction n as [|n IH]; intros s H; simpl; [reflexivity|].
  rewrite (H s) by lia. f_equal. apply IH. intros k Hk. apply H. lia.
Qed.

Lemma run_loop_trajectory body fuel st err fin :
  run_loop body fuel st err = Some fin ->
  rs_step_number st <= rs_step_number (final_state fin) /\
  map ts_step_number (rs_trajectory (final_state fin)) =
    map ts_step_number (rs_trajectory st) ++
    filter (fun k => is_recorded (body k))
           (seq (S (rs_step_number st)) (rs_step_number (final_state fin) - rs_step_number st)).
Proof.
  revert st err. induction fuel as [|f IH]; intros st err H; simpl in H; [discriminate|].
  destruct (rs_task_completed st).
  - injection H as <-. simpl. rewrite Nat.sub_diag. simpl. rewrite app_nil_r. split; reflexivity.
  - unfold Agent_step in H.
    destruct (body (S (rs_step_number st))) as [c|c th tn] eqn:Eb;
      apply IH in H; simpl in H; destruct H as [Hle Hmap]; split; try lia; rewrite Hmap;
      replace (rs_step_number (final_state fin) - rs_step_number st)
        with (S (rs_step_number (final_state fin) - S (rs_step_number st))) by lia;
      simpl; rewrite Eb; simpl.
    + reflexivity.
    + rewrite map_app, <- app_assoc. reflexivity.
Qed.

(** Claim C5, as the code has it. When [Agent.run] reaches [finish] after
    [N] steps ([step_number = N]), the step numbers of the trajectory are
    the numbers [k] in [1..N] whose step did not raise, in increasing order:
    a step that raises consumes its number and leaves no record. When no
    step raised, they are exactly [1..N], and the trajectory has length [N]. *)
Theorem trajectory_numbers_of_recorded_steps body fuel fin :
  Agent_run body fuel = Some fin ->
  let N := rs_step_number (final_state fin) in
  map ts_step_number (rs_trajectory (final_state fin)) =
    filter (fun k => is_recorded (body k)) (seq 1 N) /\
  ((forall k, 1 <= k <= N -> is_recorded (body k) = true) ->
   map ts_step_number (rs_trajectory (final_state fin)) = seq 1 N /\
   length (rs_trajectory (final_state fin)) = N).
Proof.
  intros H N. apply run_loop_trajectory in H as [_ Hmap]. simpl in Hmap.
  rewrite Nat.sub_0_r in Hmap. split; [exact Hmap|].
  intros Hall. rewrite filter_seq_all in Hmap by (intros k Hk; apply Hall; lia).
  split; [exact Hmap|].
  rewrite <- (length_map ts_step_number), Hmap. apply length_seq.
Qed.

Lemma trajectory_numbers_of_recorded_steps_witness :
  Agent_run raise_then_complete 3 =
    Some (mkFinished (mkRunState 2 true [mkTrajectoryStep 2 "done" "complete_task"]) true) /\
  map ts_step_number [mkTrajectoryStep 2 "done" "complete_task"] =
    filter (fun k => is_recorded (raise_then_complete k)) (seq 1 2).
Proof.
  split; [reflexivity|].
  exact (proj1 (trajectory_numbers_of_recorded_steps raise_then_complete 3
                  (mkFinished (mkRunState 2 true [mkTrajectoryStep 2 "done" "complete_task"]) true)
                  eq_refl)).
Defined.

(** ** Version histories *)

Lemma history_extends_refl cb : history_extends cb cb.
Proof. intros p sf H. exists sf, []. rewrite app_nil_r. split; [exact H|reflexivity]. Qed.

Lemma history_extends_trans cb1 cb2 cb3 :
  history_extends cb1 cb2 -> history_extends cb2 cb3 -> history_extends cb1 cb3.
Proof.
  intros H12 H23 p sf H. destruct (H12 p sf H) as [sf2 [e2 [H2 V2]]].
  destruct (H23 p sf2 H2) as [sf3 [e3 [H3 V3]]].
  exists sf3, (e2 ++ e3). split; [exact H3|]. rewrite V3, V2, app_assoc. reflexivity.
Qed.

Lemma contents_snoc p pre v : contents (mkSourceFile p (pre ++ [v])) = Some v.
Proof. unfold contents. simpl. rewrite map_app. apply last_last. Qed.

Lemma Dict_get_in_keys {V} (q : string) (v : V) d : Dict.get q d = Some v -> In q (Dict.keys d).
Proof.
  induction d as [|[k w] d IH]; simpl; [discriminate|].
  destruct (String.eqb q k) eqn:E; intros H.
  - left. apply String.eqb_eq in E. now subst.
  - right. exact (IH H).
Qed.

Lemma edit_preserves cb p sf c :
  Dict.get p cb = Some sf -> wf_codebase cb ->
  history_extends cb (Dict.set p (update_contents c sf) cb) /\
  wf_codebase (Dict.set p (update_contents c sf) cb).
Proof.
  intros Hp Hwf. split.
  - intros q sq Hq. destruct (String.eqb_spec p q) as [<-|Hne].
    + rewrite Hq in Hp. injection Hp as <-.
      exists (update_contents c sq), [c]. rewrite Dict_get_set_eq. split; reflexivity.
    + exists sq, []. rewrite Dict_get_set_ne by exact Hne. rewrite app_nil_r. split; auto.
  - intros q sq Hq. destruct (String.eqb_spec p q) as [<-|Hne].
    + rewrite Dict_get_set_eq in Hq. injection Hq as <-.
      exists (versions sf), c. split; [reflexivity|]. apply contents_snoc.
    + rewrite Dict_get_set_ne in Hq by exact Hne. exact (Hwf q sq Hq).
Qed.

Lemma add_fresh_preserves cb p c :
  existsb (String.eqb p) (Dict.keys cb) = false -> wf_codebase cb ->
  history_extends cb (add_file p c cb) /\ wf_codebase (add_file p c cb).
Proof.
  intros Hfresh Hwf. unfold add_file. split.
  - intros q sq Hq. destruct (String.eqb_spec p q) as [<-|Hne].
    + apply Dict_get_in_keys in Hq.
      assert (existsb (String.eqb p) (Dict.keys cb) = true)
        by (apply existsb_exists; exists p; split; [exact Hq|apply String.eqb_refl]).
      congruence.
    + exists sq, []. rewrite Dict_get_set_ne by exact Hne. rewrite app_nil_r. split; auto.
  - intros q sq Hq. destruct (String.eqb_spec p q) as [<-|Hne].
    + rewrite Dict_get_set_eq in Hq. injection Hq as <-.
      exists [], c. split; reflexivity.
    + rewrite Dict_get_set_ne in Hq by exact Hne. exact (Hwf q sq Hq).
Qed.

(** Case analysis on every test a method body makes (pairs apart). *)
Ltac py_scrutinees :=
  repeat (simpl in *; match goal with
                      | |- context [match ?x with _ => _ end] =>
                          lazymatch type of x with
                          | prod _ _ => fail
                          | _ => destruct x eqn:?
                          end
                      end).

Lemma edit_file_inr k c cb cb' :
  edit_file k c cb = inr cb' ->
  exists p sf, Dict.get p cb = Some sf /\ cb' = Dict.set p (update_contents c sf) cb.
Proof.
  unfold edit_file, files_getitem.
  destruct k as [[p|t n]|]; try discriminate;
    [|destruct (existsb _ _); discriminate].
  destruct (Dict.get p cb) as [sf|] eqn:E; [|discriminate].
  intros H. injection H as <-. exists p, sf. split; [exact E|reflexivity].
Qed.

(** [EditFileTool._use] changes the codebase by appending one version to
    an existing file, or not at all. *)
Lemma EditFileTool_use_codebase lint_code t ag :
  codebase (snd (EditFileTool_use_ lint_code t ag)) = codebase ag \/
  exists p sf c, Dict.get p (codebase ag) = Some sf /\
    codebase (snd (EditFileTool_use_ lint_code t ag)) = Dict.set p (update_contents c sf) (codebase ag).
Proof.
  unfold EditFileTool_use_, bind, getitem, gets, lift, modify, as_str, read_local,
    py_of_option, ret, raise.
  py_scrutinees; try (left; reflexivity);
    match goal with
    | E : edit_file _ _ _ = inr _ |- _ =>
        let q := fresh "q" in let sq := fresh "sq" in let Hg := fresh "Hg" in
        destruct (edit_file_inr _ _ _ _ E) as [q [sq [Hg ->]]];
        right; exists q, sq; eexists; split; [exact Hg|reflexivity]
    end.
Qed.

(** [CreateFileTool._use] changes the codebase by [add_file] on the path
    of its [file_path] argument, or not at all. *)
Lemma CreateFileTool_use_codebase lint_code t ag :
  codebase (snd (CreateFileTool_use_ lint_code t ag)) = codebase ag \/
  exists p c, Dict.get "file_path" (arguments t) = Some (VStr p) /\
    codebase (snd (CreateFileTool_use_ lint_code t ag)) = add_file p c (codebase ag).
Proof.
  unfold CreateFileTool_use_, bind, getitem, gets, lift, modify, path_of, write_str, read_local,
    ret, raise.
  py_scrutinees; first [left; reflexivity | right; do 2 eexists; split; reflexivity].
Qed.

Lemma validate_create_fresh args ag u ag' p :
  validate_arguments (mkTool CreateFileTool args) ag = (inr u, ag') ->
  Dict.get "file_path" args = Some (VStr p) ->
  existsb (String.eqb p) (Dict.keys (codebase ag)) = false.
Proof.
  intros H Hp.
  destruct (py_in (VStr p) (get_relative_file_paths (codebase ag))) eqn:E; [|exact E].
  simpl in E.
  unfold validate_arguments, validate_argument_values, bind, lift, getitem, gets, ret, raise in H.
  simpl in H. rewrite (Dict_get_mem _ _ _ Hp) in H. simpl in H.
  destruct (Dict.mem "file_contents" args); simpl in H; [|discriminate].
  rewrite Hp in H. simpl in H. rewrite E in H. discriminate.
Qed.

Lemma exec_call_preserves lint_code docker_run write_outside c ag :
  (kind (call_tool c) = EditFileTool \/ kind (call_tool c) = CreateFileTool) ->
  wf_codebase (codebase ag) ->
  history_extends (codebase ag) (codebase (exec_call lint_code docker_run write_outside c ag)) /\
  wf_codebase (codebase (exec_call lint_code docker_run write_outside c ag)).
Proof.
  intros Hk Hwf. destruct c as [t|t]; simpl in *.
  - rewrite Tool_use_raises_AttributeError. simpl. split; [apply history_extends_refl|exact Hwf].
  - pose proof (validate_arguments_state t ag) as Hs.
    destruct (validate_arguments t ag) as [[e|u] ag'] eqn:Ev; simpl in Hs; subst ag';
      [split; [apply history_extends_refl|exact Hwf]|].
    destruct t as [k args]; simpl in Hk. unfold Tool_use_. simpl.
    destruct Hk as [-> | ->].
    + destruct (EditFileTool_use_codebase lint_code (mkTool EditFileTool args) ag)
        as [-> | [p [sf [c [Hg ->]]]]]; [split; [apply history_extends_refl|exact Hwf]|].
      exact (edit_preserves _ _ _ _ Hg Hwf).
    + destruct (CreateFileTool_use_codebase lint_code (mkTool CreateFileTool args) ag)
        as [-> | [p [c [Hp ->]]]]; [split; [apply history_extends_refl|exact Hwf]|].
      apply add_fresh_preserves; [|exact Hwf].
      exact (validate_create_fresh _ _ _ _ _ Ev Hp).
Qed.

(** Claim C7. Along any sequence of [edit_file] and [create_file] calls,
    made through [Tool.use] or through [validate_arguments] followed by
    [_use], every file keeps all its versions as a prefix of its new list
    (no version is changed or dropped, no file is removed), and every file
    has a version list ending in its current [contents]. *)
Theorem version_history_append_only lint_code docker_run write_outside (cs : list Call) (ag : Agent) :
  Forall (fun c => kind (call_tool c) = EditFileTool \/ kind (call_tool c) = CreateFileTool) cs ->
  wf_codebase (codebase ag) ->
  history_extends (codebase ag) (codebase (exec_calls lint_code docker_run write_outside cs ag)) /\
  wf_codebase (codebase (exec_calls lint_code docker_run write_outside cs ag)).
Proof.
  unfold exec_calls. revert ag. induction cs as [|c cs IH]; intros ag Hall Hwf; simpl.
  - split; [apply history_extends_refl|exact Hwf].
  - inversion Hall as [|? ? Hc Hcs]; subst.
    destruct (exec_call_preserves lint_code docker_run write_outside c ag Hc Hwf) as [H1 H2].
    destruct (IH _ Hcs H2) as [H3 H4]. split; [|exact H4].
    exact (history_extends_trans _ _ _ H1 H3).
Qed.

Lemma version_history_append_only_witness :
  Forall (fun c => kind (call_tool c) = EditFileTool \/ kind (call_tool c) = CreateFileTool) create_then_edit /\
  wf_codebase (codebase toml_agent) /\
  history_extends (codebase toml_agent)
    (codebase (exec_calls (fun _ => None) (fun _ _ _ => mkSandboxRun 0 None None) (fun _ => None) create_then_edit toml_agent)) /\
  wf_codebase
    (codebase (exec_calls (fun _ => None) (fun _ _ _ => mkSandboxRun 0 None None) (fun _ => None) create_then_edit toml_agent)).
Proof.
  assert (Hall : Forall (fun c => kind (call_tool c) = EditFileTool \/ kind (call_tool c) = CreateFileTool)
                   create_then_edit).
  { constructor; [right; reflexivity|constructor; [left; reflexivity|constructor]]. }
  assert (Hwf : wf_codebase (codebase toml_agent)).
  { intros q sf Hq. simpl in Hq. destruct (String.eqb q "pyproject.toml"); [|discriminate].
    injection Hq as <-. exists [], (VStr "[project]"). split; reflexivity. }
  split; [exact Hall|]. split; [exact Hwf|].
  exact (version_history_append_only _ _ _ create_then_edit toml_agent Hall Hwf).
Defined.

(* ================================================================== *)
(** * Further properties of the code *)



Lemma cat_cons a l : l <> [] -> cat (a :: l) = String.append a (cat l).
Proof. intros H. destruct l; [congruence|reflexivity]. Qed.

Lemma str_length_app a b : String.length (String.append a b) = String.length a + String.length b.
Proof. induction a; simpl; auto. Qed.

Lemma substring_all s : substring 0 (String.length s) s = s.
Proof. induction s; simpl; [reflexivity|now rewrite IHs]. Qed.

Lemma substring_app_r a b n m :
  substring (String.length a + n) m (String.append a b) = substring n m b.
Proof. induction a as [|c a IH]; simpl; [reflexivity|exact IH]. Qed.

Lemma substring_app_l a b : substring 0 (String.length a) (String.append a b) = a.
Proof. induction a as [|c a IH]; simpl; [destruct b; reflexivity|now rewrite IH]. Qed.

Lemma prefix_app a b : String.prefix a (String.append a b) = true.
Proof. induction a as [|c a IH]; simpl; [destruct b; reflexivity|].
  destruct (ascii_dec c c); [exact IH|congruence]. Qed.

Lemma endswith_app a b : endswith (String.append a b) b = true.
Proof.
  unfold endswith. rewrite str_length_app.
  replace (String.length a + String.length b - String.length b) with (String.length a + 0) by lia.
  rewrite substring_app_r, substring_all, String.eqb_refl, andb_true_r.
  apply Nat.leb_le. lia.
Qed.

Lemma slice_drop_last_app a b : slice_drop_last (String.length b) (String.append a b) = a.
Proof.
  unfold slice_drop_last. rewrite str_length_app.
  replace (String.length a + String.length b - String.length b) with (String.length a) by lia.
  apply substring_app_l.
Qed.

Lemma slice_from_app a b : slice_from (String.length a) (String.append a b) = b.
Proof.
  unfold slice_from. rewrite str_length_app.
  replace (String.length a + String.length b - String.length a) with (String.length b) by lia.
  rewrite <- (Nat.add_0_r (String.length a)) at 1. rewrite substring_app_r. apply substring_all.
Qed.

Lemma find_char_app c a b :
  find_char c a = (-1)%Z -> find_char c (String.append a (String c b)) = Z.of_nat (String.length a).
Proof.
  induction a as [|x a IH]; simpl; intros H.
  - rewrite Ascii.eqb_refl. reflexivity.
  - destruct (Ascii.eqb x c); [discriminate|].
    cbv zeta in H. destruct (find_char c a <? 0)%Z eqn:E.
    + rewrite (IH H). cbv zeta.
      destruct (Z.of_nat (String.length a) <? 0)%Z eqn:F; [apply Z.ltb_lt in F; lia|].
      simpl String.length. lia.
    + apply Z.ltb_ge in E. lia.
Qed.

Lemma find_char_app_none c a b :
  find_char c a = (-1)%Z -> find_char c b = (-1)%Z -> find_char c (String.append a b) = (-1)%Z.
Proof.
  induction a as [|x a IH]; simpl; intros Ha Hb; [exact Hb|].
  destruct (Ascii.eqb x c); [discriminate|]. cbv zeta in *.
  destruct (find_char c a <? 0)%Z eqn:E.
  - rewrite (IH Ha Hb). reflexivity.
  - apply Z.ltb_ge in E. lia.
Qed.

Lemma slice_from_after a c r : slice_from (S (String.length a)) (String.append a (String c r)) = r.
Proof.
  unfold slice_from. rewrite str_length_app. simpl String.length.
  replace (S (String.length a)) with (String.length a + 1) by lia.
  rewrite substring_app_r. simpl.
  replace (String.length a + S (String.length r) - (String.length a + 1)) with (String.length r) by lia.
  apply substring_all.
Qed.

Lemma str_app_assoc a b c : String.append (String.append a b) c = String.append a (String.append b c).
Proof. induction a as [|x a IH]; simpl; [reflexivity|now rewrite IH]. Qed.

Lemma slice_from_0 s : slice_from 0 s = s.
Proof. unfold slice_from. rewrite Nat.sub_0_r. apply substring_all. Qed.

Lemma cat_2 a b : cat [a; b] = String.append a b.
Proof. reflexivity. Qed.

Lemma cat_3 a b c : cat [a; b; c] = String.append a (String.append b c).
Proof. reflexivity. Qed.

Lemma cat_5 a b c d e :
  cat [a; b; c; d; e] = String.append a (String.append b (String.append c (String.append d e))).
Proof. reflexivity. Qed.

(** [remove_code_block_tags] on a fenced block whose opening line carries a
    language tag returns the body with its leading whitespace stripped; on a
    block with no newline after the opening fence, only the closing fence is
    removed. *)
Theorem remove_code_block_tags_fenced tag body x :
  find_char newline_char tag = (-1)%Z ->
  find_char newline_char x = (-1)%Z ->
  remove_code_block_tags (cat ["```"; tag; nl; body; "```"]) = lstrip body /\
  remove_code_block_tags (cat ["```"; x; "```"]) = cat ["```"; x].
Proof.
  intros Ht Hx. split.
  - unfold remove_code_block_tags. rewrite cat_5. unfold startswith.
    rewrite prefix_app.
    change nl with (String newline_char EmptyString). simpl (String.append (String newline_char "") _).
    rewrite <- str_app_assoc.
    assert (Hf : find_char newline_char (String.append "```" tag) = (-1)%Z).
    { simpl. rewrite Ht. reflexivity. }
    rewrite (find_char_app _ _ _ Hf).
    replace (Z.to_nat (Z.of_nat (String.length (String.append "```" tag)) + 1))
      with (S (String.length (String.append "```" tag))) by lia.
    rewrite slice_from_after.
    rewrite endswith_app. change 3 with (String.length "```"). rewrite slice_drop_last_app.
    reflexivity.
  - unfold remove_code_block_tags. rewrite cat_3. unfold startswith. rewrite prefix_app.
    assert (Hf : find_char newline_char (String.append "```" (String.append x "```")) = (-1)%Z).
    { apply find_char_app_none; [reflexivity|]. apply find_char_app_none; [exact Hx|reflexivity]. }
    rewrite Hf. simpl Z.to_nat. rewrite slice_from_0.
    rewrite <- str_app_assoc, endswith_app. change 3 with (String.length "```").
    rewrite slice_drop_last_app, cat_2. reflexivity.
Qed.

Lemma cat_4 a b c d : cat [a; b; c; d] = String.append a (String.append b (String.append c d)).
Proof. reflexivity. Qed.

(** [EditFileTool._use] removes a [```python] opening fence and a closing
    fence, but a [```py] opening fence stays in the new contents. *)
Theorem EditFileTool_normalise_fences body :
  EditFileTool_normalise (cat ["```python"; nl; body; "```"]) = lstrip body /\
  EditFileTool_normalise (cat ["```py"; nl; body; "```"]) = cat ["```py"; nl; body].
Proof.
  split.
  - unfold EditFileTool_normalise. rewrite cat_4. unfold startswith. rewrite prefix_app.
    change 9 with (String.length "```python"). rewrite slice_from_app.
    rewrite <- str_app_assoc, endswith_app. change 3 with (String.length "```").
    rewrite slice_drop_last_app. reflexivity.
  - unfold EditFileTool_normalise. rewrite cat_4.
    assert (Hs : startswith (String.append "```py" (String.append nl (String.append body "```")))
                   "```python" = false) by reflexivity.
    rewrite Hs.
    rewrite <- (str_app_assoc nl), <- str_app_assoc, endswith_app.
    change 3 with (String.length "```"). rewrite slice_drop_last_app.
    rewrite cat_3. reflexivity.
Qed.

Lemma split_on_nonempty c s : split_on c s <> [].
Proof.
  induction s as [|x s IH]; simpl; [discriminate|].
  destruct (Ascii.eqb x c); [discriminate|]. destruct (split_on c s); discriminate.
Qed.

Lemma split_on_app_sep c a b :
  split_on c (String.append a (String c b)) = split_on c a ++ split_on c b.
Proof.
  induction a as [|x a IH]; simpl.
  - rewrite Ascii.eqb_refl. reflexivity.
  - rewrite IH. destruct (Ascii.eqb x c); [reflexivity|].
    destruct (split_on c a) as [|h t] eqn:E; [exfalso; exact (split_on_nonempty c a E)|].
    reflexivity.
Qed.

Lemma split_on_no_sep c s : rfind c s = None -> split_on c s = [s].
Proof.
  induction s as [|x s IH]; simpl; intros H; [reflexivity|].
  destruct (rfind c s); [discriminate|]. destruct (Ascii.eqb x c); [discriminate|].
  rewrite IH by reflexivity. reflexivity.
Qed.

Lemma rfind_app_sep c a b : rfind c b = None -> rfind c (String.append a (String c b)) = Some (String.length a).
Proof.
  intros Hb. induction a as [|x a IH]; simpl.
  - rewrite Hb, Ascii.eqb_refl. reflexivity.
  - rewrite IH. reflexivity.
Qed.

Lemma last_app_single {A} (l : list A) (x d : A) : last (l ++ [x]) d = x.
Proof. apply last_last. Qed.

Lemma substring_suffix a b : substring (String.length a) (String.length b) (String.append a b) = b.
Proof. rewrite <- (Nat.add_0_r (String.length a)). rewrite substring_app_r. apply substring_all. Qed.

Lemma path_suffix_ext stem e :
  rfind "."%char e = None -> stem <> "" -> e <> "" ->
  path_suffix (String.append stem (String "."%char e)) = String "."%char e.
Proof.
  intros Hdot Hstem He. unfold path_suffix. rewrite (rfind_app_sep _ _ _ Hdot).
  rewrite str_length_app.
  destruct stem as [|c0 stem']; [congruence|].
  destruct e as [|c1 e']; [congruence|].
  set (A := String c0 stem'). set (B := String "."%char (String c1 e')).
  replace ((0 <? String.length A)%nat && (String.length A <? String.length A + String.length B - 1)%nat)
    with true by (symmetry; apply andb_true_iff; unfold A, B; simpl; split; apply Nat.ltb_lt; lia).
  replace (String.length A + String.length B - String.length A) with (String.length B) by lia.
  apply substring_suffix.
Qed.

(** [retrieve_file_identifier] maps the extension of the file name to its
    Markdown identifier, or returns the extension itself when it is not in
    [EXTENSION_TO_MARKDOWN_IDENTIFIER]. *)
Theorem retrieve_file_identifier_extension dir stem e :
  rfind slash (cat [stem; "."; e]) = None ->
  rfind "."%char e = None -> stem <> "" -> e <> "" ->
  retrieve_file_identifier (cat [dir; "/"; stem; "."; e]) =
    match Dict.get e EXTENSION_TO_MARKDOWN_IDENTIFIER with Some i => i | None => e end.
Proof.
  intros Hslash Hdot Hstem He.
  assert (Hnm : cat [dir; "/"; stem; "."; e] = String.append dir (String slash (String.append stem (String "."%char e)))) by reflexivity.
  rewrite cat_3 in Hslash. simpl (String.append "." e) in Hslash.
  assert (Hlen : String.length (String.append stem (String "."%char e)) = String.length stem + S (String.length e)).
  { rewrite str_length_app. reflexivity. }
  assert (Hname : path_name (cat [dir; "/"; stem; "."; e]) = String.append stem (String "."%char e)).
  { unfold path_name, path_parts. rewrite Hnm, split_on_app_sep, (split_on_no_sep _ _ Hslash).
    rewrite filter_app. simpl.
    destruct (String.eqb (String.append stem (String "."%char e)) "") eqn:E1.
    { apply String.eqb_eq in E1. rewrite E1 in Hlen. simpl in Hlen. lia. }
    destruct (String.eqb (String.append stem (String "."%char e)) ".") eqn:E2.
    { apply String.eqb_eq in E2. rewrite E2 in Hlen. simpl in Hlen.
      destruct stem; [congruence|simpl in Hlen; lia]. }
    simpl. apply last_app_single. }
  unfold retrieve_file_identifier. rewrite Hname, (path_suffix_ext _ _ Hdot Hstem He).
  simpl lstrip_dots.
  destruct e as [|c1 e']; [congruence|]. simpl in Hdot. simpl.
  destruct (rfind "."%char e'); [discriminate|].
  destruct (Ascii.eqb c1 "."%char); [discriminate|]. reflexivity.
Qed.

Lemma Dict_get_set {V} (q k : string) (v : V) d :
  Dict.get q (Dict.set k v d) = if String.eqb q k then Some v else Dict.get q d.
Proof.
  destruct (String.eqb_spec q k) as [->|Hne]; [apply Dict_get_set_eq|].
  apply Dict_get_set_ne. congruence.
Qed.

Lemma Dict_keys_set_in {V} (k : string) (v : V) d :
  In k (Dict.keys d) -> Dict.keys (Dict.set k v d) = Dict.keys d.
Proof.
  unfold Dict.keys. induction d as [|[k' v'] d IH]; simpl; [contradiction|].
  intros H. destruct (String.eqb_spec k k') as [->|Hne]; [reflexivity|].
  simpl. f_equal. apply IH. destruct H as [H|H]; [congruence|exact H].
Qed.

Lemma Dict_keys_set_fresh {V} (k : string) (v : V) d :
  ~ In k (Dict.keys d) -> Dict.keys (Dict.set k v d) = Dict.keys d ++ [k].
Proof.
  unfold Dict.keys. induction d as [|[k' v'] d IH]; simpl; [reflexivity|].
  intros H. destruct (String.eqb_spec k k') as [->|Hne]; [exfalso; apply H; left; reflexivity|].
  simpl. f_equal. apply IH. intros H'. apply H. right. exact H'.
Qed.

Lemma substring_split s i j : i + j = String.length s ->
  s = String.append (substring 0 i s) (substring i j s).
Proof.
  revert i j. induction s as [|c s IH]; intros i j H; simpl in H.
  - destruct i, j; simpl; try lia. reflexivity.
  - destruct i as [|i]; simpl.
    + destruct j as [|j]; [lia|]. simpl. f_equal. replace j with (String.length s) by lia.
      symmetry. apply substring_all.
    + f_equal. apply IH. lia.
Qed.

Lemma endswith_spec s suf : endswith s suf = true -> exists pre, s = String.append pre suf.
Proof.
  unfold endswith. intros H. apply andb_true_iff in H as [H1 H2].
  apply Nat.leb_le in H1. apply String.eqb_eq in H2.
  exists (substring 0 (String.length s - String.length suf) s).
  rewrite <- H2 at 2. apply substring_split. lia.
Qed.

Lemma app_last_char a b x y :
  String.append a (String x EmptyString) = String.append b (String y EmptyString) -> x = y.
Proof.
  revert b. induction a as [|c a IH]; intros b H; destruct b as [|d b]; simpl in H.
  - congruence.
  - injection H as _ H. destruct b; discriminate.
  - injection H as _ H. destruct a; discriminate.
  - injection H as _ H. exact (IH _ H).
Qed.

Lemma py_not_toml n : endswith n ".py" = true -> endswith n ".toml" = false.
Proof.
  intros H1. destruct (endswith n ".toml") eqn:H2; [|reflexivity].
  destruct (endswith_spec _ _ H1) as [p1 E1]. destruct (endswith_spec _ _ H2) as [p2 E2].
  rewrite E1 in E2.
  change ".py" with (String.append ".p" "y") in E2. change ".toml" with (String.append ".tom" "l") in E2.
  rewrite <- !str_app_assoc in E2. apply app_last_char in E2. discriminate.
Qed.

Lemma NoDup_map_fst_eq {A B} (l : list (A * B)) x y :
  NoDup (map fst l) -> In x l -> In y l -> fst x = fst y -> x = y.
Proof.
  induction l as [|z l IH]; simpl; intros Hnd Hx Hy Heq; [contradiction|].
  inversion Hnd as [|? ? Hni Hnd']; subst.
  destruct Hx as [<-|Hx], Hy as [<-|Hy]; auto.
  - exfalso. apply Hni. rewrite Heq. apply in_map. exact Hy.
  - exfalso. apply Hni. rewrite <- Heq. apply in_map. exact Hx.
Qed.

Lemma init_pass_keys pattern l cb :
  NoDup (map fst l) ->
  (forall fc, In fc l -> init_keep pattern fc = true -> ~ In (fst fc) (Dict.keys cb)) ->
  Dict.keys (init_pass pattern l cb) = Dict.keys cb ++ map fst (filter (init_keep pattern) l).
Proof.
  unfold init_pass. revert cb. induction l as [|fc l IH]; intros cb Hnd Hfresh; simpl.
  - rewrite app_nil_r. reflexivity.
  - inversion Hnd as [|? ? Hni Hnd']; subst. fold (init_keep pattern fc).
    destruct (init_keep pattern fc) eqn:K.
    + rewrite IH; [|exact Hnd'|].
      * unfold add_file. rewrite Dict_keys_set_fresh by (apply Hfresh; [left; reflexivity|exact K]).
        simpl. rewrite <- app_assoc. reflexivity.
      * intros fc' Hin K'. unfold add_file. rewrite Dict_keys_set_fresh
          by (apply Hfresh; [left; reflexivity|exact K]).
        intros Hk. apply in_app_or in Hk as [Hk|[Hk|[]]].
        -- exact (Hfresh fc' (or_intror Hin) K' Hk).
        -- apply Hni. rewrite Hk. apply in_map. exact Hin.
    + apply IH; [exact Hnd'|]. intros fc' Hin K'. exact (Hfresh fc' (or_intror Hin) K').
Qed.

Lemma init_pass_files (Q : string * string -> Prop) pattern l cb :
  (forall fc, init_keep pattern fc = true -> Q fc) ->
  (forall p sf, Dict.get p cb = Some sf ->
     exists c, In (p, c) l /\ Q (p, c) /\ sf = mkSourceFile p [VStr c]) ->
  forall p sf, Dict.get p (init_pass pattern l cb) = Some sf ->
    exists c, In (p, c) l /\ Q (p, c) /\ sf = mkSourceFile p [VStr c].
Proof.
  unfold init_pass. intros HQ Hcb.
  assert (Hgen : forall l' cb', incl l' l ->
    (forall p sf, Dict.get p cb' = Some sf ->
       exists c, In (p, c) l /\ Q (p, c) /\ sf = mkSourceFile p [VStr c]) ->
    forall p sf, Dict.get p (fold_left (fun cb fc => if glob_matches pattern (fst fc) && negb (is_hidden (fst fc))
       then add_file (fst fc) (VStr (snd fc)) cb else cb) l' cb') = Some sf ->
    exists c, In (p, c) l /\ Q (p, c) /\ sf = mkSourceFile p [VStr c]).
  { induction l' as [|[q c] l' IH]; intros cb' Hincl Hcb'; simpl; [exact Hcb'|].
    apply IH; [intros x Hx; apply Hincl; right; exact Hx|].
    destruct (glob_matches pattern q && negb (is_hidden q)) eqn:K; [|exact Hcb'].
    intros p sf Hp. unfold add_file in Hp. rewrite Dict_get_set in Hp.
    destruct (String.eqb_spec p q) as [->|Hne].
    - injection Hp as <-. exists c. split; [apply Hincl; left; reflexivity|].
      split; [apply HQ; exact K|reflexivity].
    - exact (Hcb' p sf Hp). }
  apply Hgen; [intros x Hx; exact Hx|exact Hcb].
Qed.

Lemma init_pass_exc_ok pattern l cb :
  (forall fc, In fc l -> init_keep pattern (read_ok fc) = true -> exists s, snd fc = inr s) ->
  init_pass_exc pattern l (inr cb) = inr (init_pass pattern (map read_ok l) cb).
Proof.
  unfold init_pass_exc, init_pass. revert cb.
  induction l as [|[q r] l IH]; intros cb Hok; simpl; [reflexivity|].
  unfold init_keep in Hok. simpl in Hok.
  destruct (glob_matches pattern q && negb (is_hidden q)) eqn:K.
  - destruct (Hok (q, r) (or_introl eq_refl) K) as [s Hs]. simpl in Hs. subst r.
    apply IH. intros fc Hin. exact (Hok fc (or_intror Hin)).
  - apply IH. intros fc Hin. exact (Hok fc (or_intror Hin)).
Qed.

Lemma filter_map_read_ok (f : string * string -> bool) l :
  map fst (filter f (map read_ok l)) = map fst (filter (fun fc => f (read_ok fc)) l).
Proof.
  induction l as [|fc l IH]; simpl; [reflexivity|].
  destruct (f (read_ok fc)); simpl; rewrite IH; reflexivity.
Qed.

(** When every non-hidden entry the globs yield can be read (no directory
    named like a [.py] or [.toml] file, no text that fails to decode),
    [Codebase.__init__] returns normally and holds exactly the non-hidden
    [.py] files, then the non-hidden [.toml] files, in listing order, each
    with one version: its text as read. *)
Theorem Codebase_init_files listing :
  NoDup (map fst listing) ->
  (forall p r, In (p, r) listing -> is_hidden p = false ->
     glob_matches "**/*.py" p || glob_matches "**/*.toml" p = true -> exists s, r = inr s) ->
  exists cb, Codebase_init listing = inr cb /\
  Dict.keys cb =
    map fst (filter (fun fc => glob_matches "**/*.py" (fst fc) && negb (is_hidden (fst fc))) listing
             ++ filter (fun fc => glob_matches "**/*.toml" (fst fc) && negb (is_hidden (fst fc))) listing) /\
  (forall p sf, Dict.get p cb = Some sf ->
     exists c, In (p, inr c) listing /\ versions sf = [VStr c] /\ relative_file_path sf = p).
Proof.
  intros Hnd0 Hread.
  set (L := map read_ok listing).
  assert (Hnd : NoDup (map fst L)) by (unfold L; rewrite map_map; exact Hnd0).
  assert (Hok : forall pattern, In pattern PATTERNS ->
            forall fc, In fc listing -> init_keep pattern (read_ok fc) = true -> exists s, snd fc = inr s).
  { intros pattern Hpat [q r] Hin K. unfold init_keep, read_ok in K. simpl in K.
    apply andb_true_iff in K as [Kg Kh]. apply negb_true_iff in Kh.
    apply (Hread q r Hin Kh). destruct Hpat as [<-|[<-|[]]]; rewrite Kg; [reflexivity|apply orb_true_r]. }
  exists (init_pass "**/*.toml" L (init_pass "**/*.py" L [])). split; [|split].
  { unfold Codebase_init, PATTERNS. simpl fold_left.
    fold (init_pass_exc "**/*.py" listing (inr [])).
    fold (init_pass_exc "**/*.toml" listing (init_pass_exc "**/*.py" listing (inr []))).
    rewrite init_pass_exc_ok by (apply Hok; left; reflexivity).
    rewrite init_pass_exc_ok by (apply Hok; right; left; reflexivity).
    reflexivity. }
  - rewrite map_app.
    change (map fst (filter (fun fc => glob_matches "**/*.py" (fst fc) && negb (is_hidden (fst fc))) listing))
      with (map fst (filter (fun fc => init_keep "**/*.py" (read_ok fc)) listing)).
    change (map fst (filter (fun fc => glob_matches "**/*.toml" (fst fc) && negb (is_hidden (fst fc))) listing))
      with (map fst (filter (fun fc => init_keep "**/*.toml" (read_ok fc)) listing)).
    rewrite <- (filter_map_read_ok (init_keep "**/*.py")), <- (filter_map_read_ok (init_keep "**/*.toml")).
    fold L.
    rewrite (init_pass_keys "**/*.toml"); [|exact Hnd|].
    + rewrite (init_pass_keys "**/*.py"); [reflexivity|exact Hnd|]. intros fc _ _ [].
    + intros fc Hin K. rewrite (init_pass_keys "**/*.py"); [|exact Hnd|intros ? _ _ []].
      simpl. intros Hk. apply in_map_iff in Hk as [fc' [Heq Hin']].
      apply filter_In in Hin' as [Hin' K'].
      assert (fc' = fc).
      { exact (NoDup_map_fst_eq _ _ _ Hnd Hin' Hin Heq). }
      subst fc'. unfold init_keep, glob_matches in K, K'.
      change (slice_from 4 "**/*.toml") with ".toml" in K.
      change (slice_from 4 "**/*.py") with ".py" in K'.
      apply andb_true_iff in K as [K _]. apply andb_true_iff in K' as [K' _].
      rewrite (py_not_toml _ K') in K. discriminate.
  - intros p sf Hp.
    set (Q := fun fc : string * string => is_hidden (fst fc) = false /\
                glob_matches "**/*.py" (fst fc) || glob_matches "**/*.toml" (fst fc) = true).
    assert (HQ : forall pattern, In pattern PATTERNS -> forall fc, init_keep pattern fc = true -> Q fc).
    { intros pattern Hpat fc K. unfold init_keep in K.
      apply andb_true_iff in K as [Kg Kh]. apply negb_true_iff in Kh. split; [exact Kh|].
      destruct Hpat as [<-|[<-|[]]]; rewrite Kg; [reflexivity|apply orb_true_r]. }
    destruct (init_pass_files Q "**/*.toml" L _ (HQ _ (or_intror (or_introl eq_refl)))
                (init_pass_files Q "**/*.py" L [] (HQ _ (or_introl eq_refl))
                   (fun _ _ H => ltac:(discriminate H))) p sf Hp)
      as [c [Hin [[Hh Hg] ->]]].
    unfold L in Hin. apply in_map_iff in Hin as [[q r] [Hqr Hin]].
    unfold read_ok in Hqr. simpl in Hqr. injection Hqr as -> Hc.
    destruct (Hread p r Hin Hh Hg) as [s ->]. subst c.
    exists s. auto.
Qed.

Lemma list_string_eqb_eq a b : list_string_eqb a b = true <-> a = b.
Proof.
  revert b. induction a as [|x a IH]; intros [|y b]; simpl; split; intros H; try congruence.
  - apply andb_true_iff in H as [H1 H2]. apply String.eqb_eq in H1. apply IH in H2. congruence.
  - injection H as -> ->. apply andb_true_iff. split; [apply String.eqb_refl|apply IH; reflexivity].
Qed.

Lemma Dict_get_In {V} (p : string) (v : V) d : Dict.get p d = Some v -> In (p, v) d.
Proof.
  induction d as [|[k w] d IH]; simpl; [discriminate|].
  destruct (String.eqb_spec p k) as [->|Hne]; intros H.
  - injection H as ->. left. reflexivity.
  - right. exact (IH H).
Qed.

Lemma is_file_entries pre x :
  is_file (map disk_entry pre) x = true <-> In x (map (fun e => path_parts (fst e)) pre).
Proof.
  unfold is_file. rewrite existsb_exists. split.
  - intros [[q s] [Hin Heq]]. apply list_string_eqb_eq in Heq. simpl in Heq. subst q.
    apply in_map_iff in Hin as [e [He Hin]]. unfold disk_entry in He. injection He as <- _.
    apply (in_map (fun e => path_parts (fst e))). exact Hin.
  - intros Hin. apply in_map_iff in Hin as [e [<- Hin]].
    exists (disk_entry e). split; [apply in_map; exact Hin|]. apply list_string_eqb_eq. reflexivity.
Qed.

Lemma is_dir_entries pre x : x <> [] ->
  is_dir (map disk_entry pre) x = true ->
  exists e, In e pre /\ In x (dir_prefixes (path_parts (fst e))).
Proof.
  intros Hx. unfold is_dir. destruct x as [|y x]; [congruence|].
  rewrite existsb_exists. intros [[q s] [Hin H]]. rewrite existsb_exists in H.
  destruct H as [z [Hz Heq]]. apply list_string_eqb_eq in Heq. subst z.
  apply in_map_iff in Hin as [e [He Hin]]. unfold disk_entry in He. injection He as Hq _.
  exists e. split; [exact Hin|]. simpl in Hz. rewrite Hq. exact Hz.
Qed.

Lemma disk_write_fresh x s d : is_file d x = false -> disk_write x s d = d ++ [(x, s)].
Proof.
  induction d as [|[q s'] d IH]; simpl; [reflexivity|]. unfold is_file. simpl.
  intros H. apply orb_false_iff in H as [H1 H2]. rewrite H1. f_equal. exact (IH H2).
Qed.

Lemma read_disk_entries pre p sf :
  NoDup (map (fun e => path_parts (fst e)) pre) -> In (p, sf) pre ->
  read_disk (map disk_entry pre) (path_parts p) = Some (str_contents sf).
Proof.
  induction pre as [|[q sq] pre IH]; simpl; intros Hnd Hin; [contradiction|].
  inversion Hnd as [|? ? Hni Hnd']; subst.
  destruct Hin as [Heq|Hin].
  - injection Heq as -> ->. unfold disk_entry. simpl.
    replace (list_string_eqb (path_parts p) (path_parts p)) with true
      by (symmetry; apply list_string_eqb_eq; reflexivity). reflexivity.
  - destruct (list_string_eqb (path_parts q) (path_parts p)) eqn:E.
    + exfalso. apply list_string_eqb_eq in E. apply Hni. rewrite E.
      apply (in_map (fun e => path_parts (fst e)) _ (p, sf)). exact Hin.
    + exact (IH Hnd' Hin).
Qed.

(** The conditions under which the snapshot can be written back. *)

Lemma write_source_files_entries pre rest :
  writable (pre ++ rest) ->
  write_source_files (map disk_entry pre) (map snd rest) = Written (map disk_entry (pre ++ rest)).
Proof.
  revert pre. induction rest as [|[p sf] rest IH]; intros pre [Hf [Hnd Hpre]].
  - rewrite app_nil_r. reflexivity.
  - assert (Hin : In (p, sf) (pre ++ (p, sf) :: rest)) by (apply in_or_app; right; left; reflexivity).
    destruct (Hf _ _ Hin) as [Hrel [Hplain [Hne [s Hs]]]].
    assert (Hkeys : forall e, In e (pre ++ (p, sf) :: rest) -> In (fst e) (Dict.keys (pre ++ (p, sf) :: rest)))
      by (intros e He; apply in_map; exact He).
    simpl map. simpl write_source_files. unfold write_source_file. rewrite Hrel, Hplain. simpl negb.
    cbv iota.
    replace (existsb (is_file (map disk_entry pre)) (dir_prefixes (path_parts p))) with false.
    2:{ symmetry. apply not_true_iff_false. rewrite existsb_exists. intros [x [Hx Hfile]].
        apply is_file_entries in Hfile. apply in_map_iff in Hfile as [e [<- He]].
        apply (Hpre (fst e) p); [apply Hkeys; apply in_or_app; left; exact He|exact (Hkeys _ Hin)|exact Hx]. }
    rewrite Hs.
    replace (is_dir (map disk_entry pre) (path_parts p)) with false.
    2:{ symmetry. apply not_true_iff_false. intros Hd.
        destruct (is_dir_entries _ _ Hne Hd) as [e [He Hx]].
        apply (Hpre p (fst e)); [exact (Hkeys _ Hin)|apply Hkeys; apply in_or_app; left; exact He|exact Hx]. }
    rewrite disk_write_fresh.
    2:{ apply not_true_iff_false. intros Hfile. apply is_file_entries in Hfile.
        rewrite map_app in Hnd. apply NoDup_remove_2 in Hnd. apply Hnd.
        apply in_or_app. left. exact Hfile. }
    assert (Hent : map disk_entry pre ++ [(path_parts p, s)] = map disk_entry (pre ++ [(p, sf)])).
    { rewrite map_app. cbn [map]. do 2 f_equal. unfold disk_entry, str_contents. cbn [fst snd].
      rewrite Hs. reflexivity. }
    assert (Heq : pre ++ (p, sf) :: rest = (pre ++ [(p, sf)]) ++ rest) by (rewrite <- app_assoc; reflexivity).
    rewrite Hent, Heq. apply IH. rewrite <- Heq. split; [exact Hf|split; [exact Hnd|exact Hpre]].
Qed.

(** [write_codebase_to_disk] raises [ValueError] when the output path is
    missing; otherwise, for a writable codebase, reading a file back from the
    snapshot gives its latest version. *)
Theorem write_codebase_to_disk_round_trip output_path cb :
  writable cb ->
  write_codebase_to_disk output_path false cb =
    WriteRaised (PyErr (ValueError (cat ["Output path '"; output_path; "' does not exist."]))) [] /\
  exists d, write_codebase_to_disk output_path true cb = Written d /\
    forall p sf s, Dict.get p cb = Some sf -> contents sf = Some (VStr s) ->
      read_disk d (path_parts p) = Some s.
Proof.
  intros Hw. split; [reflexivity|].
  exists (map disk_entry cb). split.
  - unfold write_codebase_to_disk. simpl negb. cbv iota.
    exact (write_source_files_entries [] cb Hw).
  - intros p sf s Hp Hs. destruct Hw as [_ [Hnd _]].
    rewrite (read_disk_entries _ _ _ Hnd (Dict_get_In _ _ _ Hp)). unfold str_contents. rewrite Hs. reflexivity.
Qed.

(** The temporary snapshot of the sandbox tools is written without raising
    for a writable codebase. *)
Lemma write_source_files_temp write_outside d sfs d' :
  write_source_files d sfs = Written d' -> write_files_to_temp write_outside d sfs = inr d'.
Proof.
  revert d. induction sfs as [|sf sfs IH]; intros d H; simpl in *.
  - injection H as ->. reflexivity.
  - destruct (write_source_file d sf); try discriminate. exact (IH _ H).
Qed.

Lemma write_files_to_temp_writable write_outside cb :
  writable cb -> write_files_to_temp write_outside [] (map snd cb) = inr (map disk_entry cb).
Proof.
  intros Hw. apply write_source_files_temp. exact (write_source_files_entries [] cb Hw).
Qed.

Lemma toml_codebase_writable : writable (codebase toml_agent).
Proof.
  split; [|split].
  - intros p sf [H|[]]; injection H as <- <-;
      (split; [reflexivity|split; [reflexivity|split; [discriminate|eexists; reflexivity]]]).
  - simpl. constructor; [intros []|constructor].
  - intros p q Hp Hq. simpl in Hp, Hq.
    destruct Hp as [<-|[]]; destruct Hq as [<-|[]]; simpl; intuition discriminate.
Qed.

(** Claim C3. [RunPythonScriptTool] classifies by the presence of output,
    not by the exit status. For a codebase that [write_codebase_to_disk]
    writes to the temporary directory without raising, its observation is
    the same for every exit status; a run exiting with status 1 that printed [done] to stdout only
    is reported as having run "successfully with no errors", and a run
    exiting with status 0 that wrote to stderr only as having run "with
    errors". *)
Theorem run_script_classified_by_output_not_exit docker_run write_outside args ag :
  Dict.get "script_path" args = Some (VStr "main.py") ->
  Dict.get "environment" args = Some (VStr "python3") ->
  writable (codebase ag) ->
  (forall i c cb, docker_run i c cb = mkSandboxRun 1 (Some "done") (Some "")) ->
  (exists o,
     RunPythonScriptTool_use_ docker_run write_outside (mkTool RunPythonScriptTool args) ag = (inr o, ag) /\
     summarised_observation_description o =
       cat [ran_main; "The script ran successfully with no errors."] /\
     (forall z, RunPythonScriptTool_observation "main.py" "python3"
                  (mkSandboxRun z (Some "done") (Some "")) = inr o)) /\
  (exists o,
     RunPythonScriptTool_observation "main.py" "python3"
       (mkSandboxRun 0 (Some "") (Some "warning")) = inr o /\
     summarised_observation_description o = cat [ran_main; "The script ran with errors."]).
Proof.
  intros Hsp Henv Hw Hrun. split.
  - unfold RunPythonScriptTool_use_, bind, getitem, gets, lift, image_of. cbn [arguments].
    rewrite Hsp, Henv. simpl. rewrite (write_files_to_temp_writable _ _ Hw). rewrite Hrun. simpl.
    eexists. split; [reflexivity|]. split; [reflexivity|]. intros z. reflexivity.
  - eexists. split; reflexivity.
Qed.

Lemma run_script_classified_by_output_not_exit_witness :
  writable (codebase toml_agent) /\
  exists o,
    RunPythonScriptTool_use_ (fun _ _ _ => mkSandboxRun 1 (Some "done") (Some "")) (fun _ => None)
      (mkTool RunPythonScriptTool [("script_path", VStr "main.py"); ("environment", VStr "python3")])
      toml_agent = (inr o, toml_agent) /\
    summarised_observation_description o =
      cat [ran_main; "The script ran successfully with no errors."].
Proof.
  split; [exact toml_codebase_writable|].
  destruct (run_script_classified_by_output_not_exit
              (fun _ _ _ => mkSandboxRun 1 (Some "done") (Some "")) (fun _ => None)
              [("script_path", VStr "main.py"); ("environment", VStr "python3")] toml_agent
              eq_refl eq_refl toml_codebase_writable (fun _ _ _ => eq_refl)) as [[o [H1 [H2 _]]] _].
  exists o. split; assumption.
Defined.

Lemma register_all_tools_get reg n :
  Dict.get n (register_all_tools reg) =
    if String.eqb n "complete_task" then Some CompleteTaskTool
    else if String.eqb n "run_all_tests" then Some RunAllTestsTool
    else if String.eqb n "run_python_script" then Some RunPythonScriptTool
    else if String.eqb n "create_file" then Some CreateFileTool
    else if String.eqb n "edit_file" then Some EditFileTool
    else if String.eqb n "open_file" then Some OpenFileTool
    else Dict.get n reg.
Proof. unfold register_all_tools, register_tool. simpl fold_left. rewrite !Dict_get_set. reflexivity. Qed.

(** After [register_all_tools], [create_tool] builds the tool of each
    registered name with the given arguments, and raises [ValueError] on a
    name that is not registered. *)
Theorem create_tool_registered reg kwargs :
  (forall k, create_tool (register_all_tools reg) (NAME k) kwargs = inr (mkTool k kwargs)) /\
  (forall n, (forall k, NAME k <> n) -> Dict.get n reg = None ->
     create_tool (register_all_tools reg) n kwargs = inl (ValueError (cat ["Unknown tool: "; n]))).
Proof.
  split.
  - intros k. unfold create_tool. rewrite register_all_tools_get. destruct k; reflexivity.
  - intros n Hn Hreg. unfold create_tool. rewrite register_all_tools_get.
    assert (F : forall k, String.eqb n (NAME k) = false)
      by (intros k; apply String.eqb_neq; intros E; exact (Hn k (eq_sym E))).
    pose proof (F CompleteTaskTool) as F1. pose proof (F RunAllTestsTool) as F2.
    pose proof (F RunPythonScriptTool) as F3. pose proof (F CreateFileTool) as F4.
    pose proof (F EditFileTool) as F5. pose proof (F OpenFileTool) as F6. simpl NAME in *.
    rewrite F1, F2, F3, F4, F5, F6, Hreg. reflexivity.
Qed.

(** [parse_tool_use_response] succeeds exactly when the stop reason is
    [tool_use] and the content starts with a text block then a tool-use
    block; a response starting with the tool-use block raises
    [AttributeError]. *)
Theorem parse_tool_use_response_spec r resp :
  (parse_tool_use_response r = inr resp <->
     stop_reason r = Some "tool_use" /\
     exists rest, content r = TextBlock (thought resp)
                    :: ToolUseBlock (tool_id resp) (tool_name resp) (tool_arguments resp) :: rest) /\
  (forall id nm input rest, stop_reason r = Some "tool_use" ->
     content r = ToolUseBlock id nm input :: rest ->
     parse_tool_use_response r = inl (AttributeError "'ToolUseBlock' object has no attribute 'text'")).
Proof.
  destruct r as [sr cs]. unfold parse_tool_use_response; simpl. split.
  - split.
    + intros H. destruct sr as [s|]; [|discriminate]. destruct (String.eqb_spec s "tool_use") as [->|Hne]; [|discriminate].
      split; [reflexivity|].
      destruct cs as [|b0 cs]; [discriminate|]. destruct b0 as [t| |]; simpl in H; try discriminate.
      destruct cs as [|b1 rest]; [discriminate|]. destruct b1 as [|id nm input|]; try discriminate.
      injection H as <-. exists rest. reflexivity.
    + intros [-> [rest ->]]. simpl. destruct resp. reflexivity.
  - intros id nm input rest -> ->. reflexivity.
Qed.

Lemma Dict_get_none_mem {V} (k : string) (d : list (string * V)) :
  Dict.get k d = None -> Dict.mem k d = false.
Proof.
  intros H. destruct (Dict.mem k d) eqn:E; [|reflexivity].
  unfold Dict.mem, Dict.keys in E. apply existsb_exists in E as [k' [Hin Heq]].
  apply String.eqb_eq in Heq. subst k'. apply in_map_iff in Hin as [[k' v] [Hk Hin]]. simpl in Hk. subst k'.
  exfalso. induction d as [|[k'' w] d IH]; [contradiction|]. simpl in H.
  destruct (String.eqb_spec k k'') as [->|Hne]; [discriminate|].
  destruct Hin as [Hin|Hin]; [injection Hin; congruence|exact (IH H Hin)].
Qed.

Lemma py_in_str p l : py_in (VStr p) l = true <-> In p l.
Proof.
  simpl. rewrite existsb_exists. split.
  - intros [x [Hx E]]. apply String.eqb_eq in E. subst. exact Hx.
  - intros H. exists p. split; [exact H|apply String.eqb_refl].
Qed.

Ltac unfold_validation :=
  unfold validate_arguments, validate_argument_values, validate_all_parameters_present,
    validate_argument_types, bind, lift, getitem, gets, ret, raise; simpl.

(** [open_file] arguments pass validation exactly when [file_path] is a
    [str] naming a file of the codebase. *)
Theorem validate_open_file_iff args ag :
  validate_arguments (mkTool OpenFileTool args) ag = (inr tt, ag) <->
  exists p, Dict.get "file_path" args = Some (VStr p) /\ In p (get_relative_file_paths (codebase ag)).
Proof.
  unfold_validation. destruct (Dict.get "file_path" args) as [v|] eqn:E.
  - rewrite (Dict_get_mem _ _ _ E). simpl.
    destruct (py_in v (get_relative_file_paths (codebase ag))) eqn:Hp; simpl.
    + destruct v as [p|t x]; [|discriminate]. simpl. split; [intros _|reflexivity].
      exists p. split; [reflexivity|]. exact (proj1 (py_in_str _ _) Hp).
    + split; [discriminate|]. intros [p [Ev Hin]]. injection Ev as ->.
      apply py_in_str in Hin. congruence.
  - rewrite (Dict_get_none_mem _ _ E). simpl. split; [discriminate|].
    intros [p [Ev _]]. discriminate.
Qed.

Lemma args_str_tagged_get args k t x :
  args_str_tagged args = true -> Dict.get k args = Some (VOther t x) -> String.eqb t "str" = false.
Proof.
  intros H E. apply Dict_get_In in E. unfold args_str_tagged in H.
  rewrite forallb_forall in H. apply H in E. simpl in E. destruct (t =? "str")%string; [discriminate|reflexivity].
Qed.

(** [create_file] arguments pass validation exactly when [file_path] is a
    [str] naming no file of the codebase and [file_contents] is a [str]. *)
Theorem validate_create_file_iff args ag :
  args_str_tagged args = true ->
  validate_arguments (mkTool CreateFileTool args) ag = (inr tt, ag) <->
  exists p c, Dict.get "file_path" args = Some (VStr p) /\
    Dict.get "file_contents" args = Some (VStr c) /\
    ~ In p (get_relative_file_paths (codebase ag)).
Proof.
  intros Ht. unfold_validation.
  destruct (Dict.get "file_path" args) as [v|] eqn:E1;
    [rewrite (Dict_get_mem _ _ _ E1)|rewrite (Dict_get_none_mem _ _ E1)];
  (destruct (Dict.get "file_contents" args) as [w|] eqn:E2;
    [rewrite (Dict_get_mem _ _ _ E2)|rewrite (Dict_get_none_mem _ _ E2)]); simpl;
  try (split; [discriminate|intros (p & c & H1 & H2 & _); discriminate]).
  destruct (py_in v (get_relative_file_paths (codebase ag))) eqn:Hp; simpl.
  - split; [discriminate|]. intros (p & c & H1 & H2 & Hn). injection H1 as ->.
    exfalso. apply Hn. exact (proj1 (py_in_str _ _) Hp).
  - destruct v as [p|t x]; simpl.
    + destruct w as [c|t x]; simpl.
      * split; [intros _|reflexivity]. exists p, c. split; [reflexivity|split; [reflexivity|]].
        intros Hin. apply py_in_str in Hin. congruence.
      * rewrite (args_str_tagged_get _ _ _ _ Ht E2). simpl.
        split; [discriminate|]. intros (p' & c & H1 & H2 & _). discriminate.
    + rewrite (args_str_tagged_get _ _ _ _ Ht E1). simpl.
      split; [discriminate|intros (p & c & H1 & H2 & _); discriminate].
Qed.

(** [edit_file] arguments pass validation exactly when both of its
    arguments are [str]: whether a file is open is not checked. *)
Theorem validate_edit_file_iff args ag :
  args_str_tagged args = true ->
  validate_arguments (mkTool EditFileTool args) ag = (inr tt, ag) <->
  exists m c, Dict.get "commit_message" args = Some (VStr m) /\
    Dict.get "new_file_contents" args = Some (VStr c).
Proof.
  intros Ht. unfold_validation.
  destruct (Dict.get "commit_message" args) as [v|] eqn:E1;
    [rewrite (Dict_get_mem _ _ _ E1)|rewrite (Dict_get_none_mem _ _ E1)];
  (destruct (Dict.get "new_file_contents" args) as [w|] eqn:E2;
    [rewrite (Dict_get_mem _ _ _ E2)|rewrite (Dict_get_none_mem _ _ E2)]); simpl;
  try (split; [discriminate|intros (p & c & H1 & H2); discriminate]).
  destruct v as [m|t x]; simpl.
  - destruct w as [c|t x]; simpl.
    + split; [intros _; exists m, c; split; reflexivity|reflexivity].
    + rewrite (args_str_tagged_get _ _ _ _ Ht E2). simpl.
      split; [discriminate|intros (p & c & H1 & H2); discriminate].
  - rewrite (args_str_tagged_get _ _ _ _ Ht E1). simpl.
    split; [discriminate|intros (p & c & H1 & H2); discriminate].
Qed.

Ltac unfold_use :=
  unfold OpenFileTool_use_, EditFileTool_use_, CreateFileTool_use_, RunPythonScriptTool_use_,
    RunAllTestsTool_use_, bind, getitem, gets, lift, modify, ret, raise, as_str, read_local,
    edit_file, retrieve_file, files_getitem, py_of_option, contents_of, path_of, write_str.

(** [OpenFileTool._use] sets the open file before it looks the file up:
    on a file of the codebase it shows its latest version; on a missing one it
    raises [KeyError] with the open file already moved. *)
Theorem OpenFileTool_use_moves_pointer args ag p :
  Dict.get "file_path" args = Some (VStr p) ->
  (forall sf c, Dict.get p (codebase ag) = Some sf -> contents sf = Some c ->
     exists o, OpenFileTool_use_ (mkTool OpenFileTool args) ag =
                 (inr o, set_open_file (Some (VStr p)) ag) /\
               file_viewer_changed o = true /\ file_viewer_new_content o = Some c) /\
  (Dict.get p (codebase ag) = None ->
     OpenFileTool_use_ (mkTool OpenFileTool args) ag =
       (inl (KeyError p), set_open_file (Some (VStr p)) ag)).
Proof.
  intros Hp. destruct ag as [cb op sn tc].
  unfold_use. simpl. rewrite Hp. simpl. split.
  - intros sf c Hsf Hc. rewrite Hsf. simpl. rewrite Hc. eexists. split; [reflexivity|split; reflexivity].
  - intros Hn. rewrite Hn. reflexivity.
Qed.

(** [EditFileTool._use] on an open [.py] file appends the normalised
    contents as a new version and reviews them with [lint_code]; with no open
    file it raises [KeyError] and changes nothing. *)
Theorem EditFileTool_use_py lint_code args ag p sf cm s :
  Dict.get "commit_message" args = Some cm ->
  Dict.get "new_file_contents" args = Some (VStr s) ->
  (open_file_relative_path ag = Some (VStr p) ->
   Dict.get p (codebase ag) = Some sf ->
   endswith p ".py" = true ->
   exists o,
     EditFileTool_use_ lint_code (mkTool EditFileTool args) ag =
       (inr o, set_codebase (Dict.set p (update_contents (VStr (EditFileTool_normalise s)) sf)
                               (codebase ag)) ag) /\
     file_viewer_new_content o = Some (VStr (EditFileTool_normalise s)) /\
     review_comment o = review_of "The code you provided has the following issues:"
                          (lint_code (EditFileTool_normalise s))) /\
  (open_file_relative_path ag = None ->
   EditFileTool_use_ lint_code (mkTool EditFileTool args) ag = (inl (KeyError "None"), ag)).
Proof.
  intros Hcm Hnc. destruct ag as [cb op sn tc]; simpl.
  unfold_use. simpl. rewrite Hcm, Hnc. simpl. split.
  - intros -> Hsf Hpy. rewrite Hsf. simpl. rewrite Hpy. simpl.
    eexists. split; [reflexivity|split; reflexivity].
  - intros ->. reflexivity.
Qed.

Lemma Dict_set_fresh {V} (k : string) (v : V) d :
  ~ In k (Dict.keys d) -> Dict.set k v d = d ++ [(k, v)].
Proof.
  unfold Dict.keys. induction d as [|[k' v'] d IH]; simpl; [reflexivity|].
  intros H. destruct (String.eqb_spec k k') as [->|Hne]; [exfalso; apply H; left; reflexivity|].
  f_equal. apply IH. intros Hin. apply H. right. exact Hin.
Qed.

(** [CreateFileTool._use] on a fresh path appends the file, with one
    version, to the codebase and opens it; a [.py] file is reviewed with
    [lint_code], any other raises [UnboundLocalError] after the file was
    added. *)
Theorem CreateFileTool_use_fresh lint_code args ag p c :
  Dict.get "file_path" args = Some (VStr p) ->
  Dict.get "file_contents" args = Some (VStr c) ->
  ~ In p (get_relative_file_paths (codebase ag)) ->
  (endswith p ".py" = true ->
   exists o,
     CreateFileTool_use_ lint_code (mkTool CreateFileTool args) ag =
       (inr o, mkAgent (codebase ag ++ [(p, mkSourceFile p [VStr c])]) (Some (VStr p))
                 (step_number ag) (task_completed ag)) /\
     file_viewer_new_content o = Some (VStr c) /\
     review_comment o = review_of "The code you provided for the new file has the following issues:"
                          (lint_code c)) /\
  (endswith p ".py" = false ->
   CreateFileTool_use_ lint_code (mkTool CreateFileTool args) ag =
     (inl python_file_unbound,
      mkAgent (codebase ag ++ [(p, mkSourceFile p [VStr c])]) (Some (VStr p))
        (step_number ag) (task_completed ag))).
Proof.
  intros Hp Hc Hfresh. destruct ag as [cb op sn tc]; simpl in *.
  assert (Hadd : add_file p (VStr c) cb = cb ++ [(p, mkSourceFile p [VStr c])]).
  { unfold add_file. apply Dict_set_fresh. exact Hfresh. }
  unfold_use. simpl. rewrite Hp, Hc. simpl. split.
  - intros Hpy. rewrite Hpy. simpl. rewrite Hadd. eexists. split; [reflexivity|split; reflexivity].
  - intros Hpy. rewrite Hpy. simpl. rewrite Hadd. reflexivity.
Qed.

Lemma bind_state_preserving {A B} (m : M A) (k : A -> M B) :
  state_preserving m -> (forall a, state_preserving (k a)) -> state_preserving (bind m k).
Proof.
  intros Hm Hk ag. unfold bind. specialize (Hm ag). destruct (m ag) as [[e|a] ag'].
  - simpl in *. exact Hm.
  - simpl in Hm. subst ag'. apply Hk.
Qed.

Lemma ret_state_preserving {A} (a : A) : state_preserving (ret a).
Proof. intros ag. reflexivity. Qed.

Lemma raise_state_preserving {A} e : state_preserving (raise (A:=A) e).
Proof. intros ag. reflexivity. Qed.

Lemma lift_state_preserving {A} (x : PyExc + A) : state_preserving (lift x).
Proof. intros ag. unfold lift. destruct x; reflexivity. Qed.

Lemma gets_state_preserving {A} (f : Agent -> A) : state_preserving (gets f).
Proof. intros ag. reflexivity. Qed.

Lemma getitem_state_preserving t k : state_preserving (getitem t k).
Proof. intros ag. unfold getitem. destruct (Dict.get k (arguments t)); reflexivity. Qed.

Lemma image_of_state_preserving v : state_preserving (image_of v).
Proof.
  intros ag. unfold image_of. destruct v as [e|]; [destruct (Dict.get e ENVIRONMENT_TO_IMAGE)|]; reflexivity.
Qed.

Create HintDb state_pres.

#[local] Hint Resolve bind_state_preserving ret_state_preserving raise_state_preserving
  lift_state_preserving gets_state_preserving getitem_state_preserving
  image_of_state_preserving : state_pres.

(** Running a script or the tests never changes the agent: the codebase, the
    open file and the flags are as before, whatever the outcome. *)
Theorem sandbox_tools_leave_agent_unchanged docker_run write_outside t ag :
  snd (RunPythonScriptTool_use_ docker_run write_outside t ag) = ag /\
  snd (RunAllTestsTool_use_ docker_run write_outside t ag) = ag.
Proof.
  split; revert ag; unfold RunPythonScriptTool_use_, RunAllTestsTool_use_;
  repeat (apply bind_state_preserving; [auto with state_pres|intros ?]); auto with state_pres.
Qed.

(** When the codebase is written to the temporary directory without
    raising and the container leaves no [stdout.txt], both sandbox tools
    raise [FileNotFoundError]. *)
Theorem sandbox_tools_missing_stdout docker_run write_outside args ag sp e img :
  Dict.get "script_path" args = Some sp ->
  Dict.get "environment" args = Some (VStr e) ->
  Dict.get e ENVIRONMENT_TO_IMAGE = Some img ->
  writable (codebase ag) ->
  (forall cmd, stdout_txt (docker_run img cmd (codebase ag)) = None) ->
  (exists msg, RunPythonScriptTool_use_ docker_run write_outside (mkTool RunPythonScriptTool args) ag =
                 (inl (FileNotFoundError msg), ag)) /\
  (exists msg, RunAllTestsTool_use_ docker_run write_outside (mkTool RunAllTestsTool args) ag =
                 (inl (FileNotFoundError msg), ag)).
Proof.
  intros Hsp He Himg Hw Hout. unfold_use. unfold image_of. cbn [arguments]. rewrite Hsp, He, Himg. simpl.
  rewrite (write_files_to_temp_writable _ _ Hw). simpl.
  unfold RunPythonScriptTool_observation, RunAllTestsTool_observation. rewrite !Hout. simpl.
  split; eexists; reflexivity.
Qed.

Lemma run_loop_first_completion body n : forall d st err fuel,
  rs_step_number st + S d = n -> rs_task_completed st = false ->
  (forall m, rs_step_number st < m < n -> completes (body m) = false) ->
  completes (body n) = true -> S d < fuel ->
  exists st', run_loop body fuel st err =
      Some (mkFinished st' (err || existsb (fun m => negb (is_recorded (body m)))
                                     (seq (S (rs_step_number st)) (S d)))) /\
    rs_step_number st' = n /\ rs_task_completed st' = true.
Proof.
  induction d as [|d IH]; intros [k tc tr] err fuel Hn Htc Hbefore Hn_c Hfuel; simpl in *; subst tc;
    (destruct fuel as [|f]; [lia|]); simpl; unfold Agent_step; simpl.
  - replace (k + 1) with (S k) in Hn by lia. subst n.
    destruct (body (S k)) as [c|c th tn]; simpl in Hn_c; subst c;
      (destruct f as [|f']; [lia|]); simpl; eexists;
      (split; [idtac; reflexivity|split; reflexivity]).
  - assert (Hc : completes (body (S k)) = false) by (apply Hbefore; lia).
    destruct (body (S k)) as [c|c th tn] eqn:B; simpl in Hc; subst c.
    + destruct (IH (mkRunState (S k) false tr) (err || true) f) as [st' [Hrun Hst']];
        [simpl; lia|reflexivity|simpl; intros m Hm; apply Hbefore; lia|exact Hn_c|lia|].
      exists st'. split; [|exact Hst']. rewrite Hrun. simpl.
      destruct err; reflexivity.
    + destruct (IH (mkRunState (S k) false (tr ++ [mkTrajectoryStep (S k) th tn])) (err || false) f)
        as [st' [Hrun Hst']];
        [simpl; lia|reflexivity|simpl; intros m Hm; apply Hbefore; lia|exact Hn_c|lia|].
      exists st'. split; [|exact Hst']. rewrite Hrun. simpl.
      destruct err; reflexivity.
Qed.

(** [Agent.run] stops after the first step that completes the task, and
    [error_occured] says whether some step up to it raised. *)
Theorem Agent_run_stops_at_first_completion body fuel n :
  1 <= n -> n < fuel ->
  (forall m, 1 <= m < n -> completes (body m) = false) ->
  completes (body n) = true ->
  exists fin, Agent_run body fuel = Some fin /\
    rs_step_number (final_state fin) = n /\
    rs_task_completed (final_state fin) = true /\
    error_occured fin = existsb (fun m => negb (is_recorded (body m))) (seq 1 n).
Proof.
  intros H1 Hf Hbefore Hc. destruct n as [|d]; [lia|].
  destruct (run_loop_first_completion body (S d) d initial_run_state false fuel) as [st' [Hrun Hst']];
    [simpl; lia|reflexivity|simpl; intros m Hm; apply Hbefore; lia|exact Hc|lia|].
  eexists. unfold Agent_run. rewrite Hrun. split; [reflexivity|]. simpl. tauto.
Qed.

(** [Codebase.add_file] on an existing path replaces the file with a new one
    holding one version and keeps the order of the paths; on a new path it
    appends the path. *)
Theorem add_file_replaces_or_appends cb p c :
  (forall q, Dict.get q (add_file p c cb) =
               if String.eqb q p then Some (mkSourceFile p [c]) else Dict.get q cb) /\
  get_relative_file_paths (add_file p c cb) =
    if Dict.mem p cb then get_relative_file_paths cb else get_relative_file_paths cb ++ [p].
Proof.
  split.
  - intros q. unfold add_file. apply Dict_get_set.
  - unfold get_relative_file_paths, add_file. destruct (Dict.mem p cb) eqn:E.
    + apply Dict_keys_set_in. unfold Dict.mem in E. apply existsb_exists in E as [x [Hx Ex]].
      apply String.eqb_eq in Ex. subst x. exact Hx.
    + apply Dict_keys_set_fresh. intros Hin. unfold Dict.mem in E.
      assert (existsb (String.eqb p) (Dict.keys cb) = true) by (apply existsb_exists; exists p; split; [exact Hin|apply String.eqb_refl]).
      congruence.
Qed.

(** [Codebase.edit_file] raises [KeyError] on a missing path; otherwise it
    appends the new version to that file and leaves the other files and the
    paths as they were. *)
Theorem edit_file_appends_version cb p c :
  (Dict.get p cb = None -> edit_file (Some (VStr p)) c cb = inl (KeyError p)) /\
  (forall sf, Dict.get p cb = Some sf ->
     exists cb', edit_file (Some (VStr p)) c cb = inr cb' /\
       retrieve_file (Some (VStr p)) cb' =
         inr (mkSourceFile (relative_file_path sf) (versions sf ++ [c])) /\
       (forall q, q <> p -> Dict.get q cb' = Dict.get q cb) /\
       get_relative_file_paths cb' = get_relative_file_paths cb).
Proof.
  unfold edit_file, files_getitem. split.
  - intros ->. reflexivity.
  - intros sf Hsf. rewrite Hsf. eexists. split; [reflexivity|]. split; [|split].
    + unfold retrieve_file, files_getitem. rewrite Dict_get_set_eq. reflexivity.
    + intros q Hq. apply Dict_get_set_ne. congruence.
    + unfold get_relative_file_paths. apply Dict_keys_set_in. exact (Dict_get_in_keys _ _ _ Hsf).
Qed.

Lemma remove_code_block_tags_fenced_witness :
  find_char newline_char "python" = (-1)%Z /\ find_char newline_char "x = 1" = (-1)%Z /\
  remove_code_block_tags (cat ["```"; "python"; nl; "  print(1)"; "```"]) = lstrip "  print(1)" /\
  remove_code_block_tags (cat ["```"; "x = 1"; "```"]) = cat ["```"; "x = 1"].
Proof.
  split; [reflexivity|split; [reflexivity|]].
  apply (remove_code_block_tags_fenced "python" "  print(1)" "x = 1"); reflexivity.
Defined.

Lemma retrieve_file_identifier_extension_witness :
  retrieve_file_identifier (cat ["src/app"; "/"; "main"; "."; "py"]) =
    match Dict.get "py" EXTENSION_TO_MARKDOWN_IDENTIFIER with Some i => i | None => "py" end.
Proof.
  apply (retrieve_file_identifier_extension "src/app" "main" "py");
    [reflexivity|reflexivity|discriminate|discriminate].
Defined.

Lemma Codebase_init_files_witness :
  NoDup (map fst sample_listing) /\
  exists cb, Codebase_init sample_listing = inr cb /\
    Dict.keys cb = ["src/app.py"; "tests/test_app.py"; "pyproject.toml"].
Proof.
  assert (Hnd : NoDup (map fst sample_listing)).
  { simpl. repeat (constructor; [simpl; intuition discriminate|]). constructor. }
  assert (Hread : forall p r, In (p, r) sample_listing -> is_hidden p = false ->
            glob_matches "**/*.py" p || glob_matches "**/*.toml" p = true -> exists s, r = inr s).
  { intros p r Hin Hh _. simpl in Hin.
    destruct Hin as [H|[H|[H|[H|[H|[H|[]]]]]]]; injection H as <- <-;
      try (eexists; reflexivity); discriminate Hh. }
  split; [exact Hnd|].
  destruct (Codebase_init_files sample_listing Hnd Hread) as [cb [Hi [Hk _]]].
  exists cb. split; [exact Hi|]. rewrite Hk. reflexivity.
Defined.

Lemma sample_codebase_writable : writable sample_codebase.
Proof.
  split; [|split].
  - intros p sf [H|[H|[]]]; injection H as <- <-;
      (split; [reflexivity|split; [reflexivity|split; [discriminate|eexists; reflexivity]]]).
  - simpl. repeat (constructor; [simpl; intuition discriminate|]). constructor.
  - intros p q Hp Hq. simpl in Hp, Hq.
    destruct Hp as [<-|[<-|[]]]; destruct Hq as [<-|[<-|[]]]; simpl; intuition discriminate.
Qed.

Lemma write_codebase_to_disk_round_trip_witness :
  exists d, write_codebase_to_disk "out" true sample_codebase = Written d /\
    read_disk d ["src"; "app.py"] = Some "print(1)".
Proof.
  destruct (write_codebase_to_disk_round_trip "out" sample_codebase sample_codebase_writable)
    as [_ [d [Hw Hr]]].
  exists d. split; [exact Hw|].
  exact (Hr "src/app.py" _ "print(1)" eq_refl eq_refl).
Defined.

Lemma validate_create_file_iff_witness :
  args_str_tagged [("file_path", VStr "src/util.py"); ("file_contents", VStr "X = 1")] = true /\
  validate_arguments (mkTool CreateFileTool
    [("file_path", VStr "src/util.py"); ("file_contents", VStr "X = 1")]) sample_agent =
  (inr tt, sample_agent).
Proof.
  split; [reflexivity|].
  apply (proj2 (validate_create_file_iff
    [("file_path", VStr "src/util.py"); ("file_contents", VStr "X = 1")] sample_agent eq_refl)).
  exists "src/util.py", "X = 1". split; [reflexivity|split; [reflexivity|]].
  simpl. intuition discriminate.
Defined.

Lemma validate_edit_file_iff_witness :
  args_str_tagged [("commit_message", VStr "m"); ("new_file_contents", VOther "int" "3")] = true /\
  validate_arguments (mkTool EditFileTool
    [("commit_message", VStr "m"); ("new_file_contents", VOther "int" "3")]) sample_agent <>
  (inr tt, sample_agent).
Proof.
  split; [reflexivity|]. intros H.
  apply (proj1 (validate_edit_file_iff
    [("commit_message", VStr "m"); ("new_file_contents", VOther "int" "3")] sample_agent eq_refl)) in H.
  destruct H as (m & c & _ & H). discriminate.
Defined.

Lemma OpenFileTool_use_moves_pointer_witness :
  OpenFileTool_use_ (mkTool OpenFileTool [("file_path", VStr "setup.py")]) sample_agent =
    (inl (KeyError "setup.py"), set_open_file (Some (VStr "setup.py")) sample_agent).
Proof.
  apply (proj2 (OpenFileTool_use_moves_pointer [("file_path", VStr "setup.py")] sample_agent
                  "setup.py" eq_refl)).
  reflexivity.
Defined.

Lemma EditFileTool_use_py_witness :
  exists o,
    EditFileTool_use_ (fun _ => Some ["F401 unused import"])
      (mkTool EditFileTool [("commit_message", VStr "m");
                            ("new_file_contents", VStr "```python import os```")]) sample_agent =
      (inr o, set_codebase (Dict.set "src/app.py"
                 (update_contents (VStr (EditFileTool_normalise "```python import os```"))
                    (mkSourceFile "src/app.py" [VStr "print(0)"; VStr "print(1)"]))
                 (codebase sample_agent)) sample_agent) /\
    file_viewer_new_content o = Some (VStr (EditFileTool_normalise "```python import os```")) /\
    review_comment o = review_of "The code you provided has the following issues:"
                         (Some ["F401 unused import"]).
Proof.
  apply (proj1 (EditFileTool_use_py (fun _ => Some ["F401 unused import"])
                  [("commit_message", VStr "m"); ("new_file_contents", VStr "```python import os```")]
                  sample_agent "src/app.py" (mkSourceFile "src/app.py" [VStr "print(0)"; VStr "print(1)"])
                  (VStr "m") "```python import os```" eq_refl eq_refl));
    reflexivity.
Defined.

Lemma CreateFileTool_use_fresh_witness :
  CreateFileTool_use_ (fun _ => None)
    (mkTool CreateFileTool [("file_path", VStr "notes.txt"); ("file_contents", VStr "todo")])
    sample_agent =
  (inl python_file_unbound,
   mkAgent (codebase sample_agent ++ [("notes.txt", mkSourceFile "notes.txt" [VStr "todo"])])
     (Some (VStr "notes.txt")) 2 false).
Proof.
  apply (proj2 (CreateFileTool_use_fresh (fun _ => None)
                  [("file_path", VStr "notes.txt"); ("file_contents", VStr "todo")]
                  sample_agent "notes.txt" "todo" eq_refl eq_refl
                  ltac:(simpl; intuition discriminate))).
  reflexivity.
Defined.

Lemma sandbox_tools_missing_stdout_witness :
  writable (codebase sample_agent) /\
  exists msg, RunAllTestsTool_use_ (fun _ _ _ => mkSandboxRun 1 None (Some "boom")) (fun _ => None)
                (mkTool RunAllTestsTool [("script_path", VStr "src/app.py");
                                         ("environment", VStr "python3")]) sample_agent =
              (inl (FileNotFoundError msg), sample_agent).
Proof.
  split; [exact sample_codebase_writable|].
  apply (proj2 (sandbox_tools_missing_stdout (fun _ _ _ => mkSandboxRun 1 None (Some "boom"))
                  (fun _ => None)
                  [("script_path", VStr "src/app.py"); ("environment", VStr "python3")]
                  sample_agent (VStr "src/app.py") "python3" "python3-base:latest"
                  eq_refl eq_refl eq_refl sample_codebase_writable (fun _ => eq_refl))).
Defined.

Lemma Agent_run_stops_at_first_completion_witness :
  exists fin, Agent_run sample_steps 10 = Some fin /\
    rs_step_number (final_state fin) = 3 /\
    rs_task_completed (final_state fin) = true /\
    error_occured fin = true.
Proof.
  destruct (Agent_run_stops_at_first_completion sample_steps 10 3 ltac:(lia) ltac:(lia)
              ltac:(intros m Hm; destruct m as [|[|[|m]]]; [lia|reflexivity|reflexivity|lia])
              eq_refl) as [fin H].
  exists fin. exact H.
Defined.
